(** * vercel_scraper: the page-fetch retry/resume loop, embedded and verified

    A shallow embedding of [src/vercel_scraper.py]: the field extractor
    ([extract_needed_fields]), the page fetcher with its bounded retry loop
    ([fetch_page]) and the pagination driver ([fetch_all_pages]).

    Conventions of the embedding:
    - Python values decoded from JSON are the type [pyval]; a Python [dict]
      with string keys is a [gmap string pyval].  Fractional JSON numbers are
      outside the model.
    - Python [str] is [string]; [str.lower] maps the ASCII capitals and
      [str.strip] removes the ASCII white space, other characters are left
      as they are.
    - Python [int] is [Z]; the arguments of [time.sleep] are rationals [Q].
    - The network, the operator's keyboard, the log file and the output file
      form the [world]; every function that touches them is a state
      transformer on the world that may also raise a Python exception.
    - Time stamps of log lines and console [print]s are not modelled. *)

From Stdlib Require Import ZArith QArith Lia Ascii String.
From stdpp Require Import base gmap strings list fin_maps.

#[local] Set Warnings "-register-all".
Local Open Scope string_scope.
Local Open Scope list_scope.
Local Open Scope Z_scope.

(** ** Strings: [str.lower], [str.strip] and the [in] operator *)

Definition lower_char (c : ascii) : ascii :=
  let n := nat_of_ascii c in
  if ((65 <=? n) && (n <=? 90))%nat then ascii_of_nat (n + 32) else c.

(** [s.lower()] *)
Fixpoint lower (s : string) : string :=
  match s with
  | EmptyString => EmptyString
  | String c s' => String (lower_char c) (lower s')
  end.

(** Python's white space among the ASCII characters: tab, line feed,
    vertical tab, form feed, carriage return, the separators 28-31 and
    the blank. *)
Definition is_space (c : ascii) : bool :=
  let n := nat_of_ascii c in
  (((9 <=? n) && (n <=? 13)) || ((28 <=? n) && (n <=? 32)))%nat.

Fixpoint lstrip (s : string) : string :=
  match s with
  | EmptyString => EmptyString
  | String c s' => if is_space c then lstrip s' else s
  end.

Fixpoint rstrip (s : string) : string :=
  match s with
  | EmptyString => EmptyString
  | String c s' =>
      match rstrip s' with
      | EmptyString => if is_space c then EmptyString else String c EmptyString
      | t => String c t
      end
  end.

(** [s.strip()] *)
Definition strip (s : string) : string := rstrip (lstrip s).

Fixpoint is_prefix (p s : string) : bool :=
  match p, s with
  | EmptyString, _ => true
  | String a p', String b s' => if Ascii.eqb a b then is_prefix p' s' else false
  | String _ _, EmptyString => false
  end.

(** [needle in hay] on two strings *)
Fixpoint contains (needle hay : string) : bool :=
  is_prefix needle hay ||
  match hay with
  | EmptyString => false
  | String _ hay' => contains needle hay'
  end.

(** The spec's words, "the text mentions [word] (case-insensitive substring
    match)": some stretch of the text equals the word up to letter case. *)
Definition mentions (text word : string) : Prop :=
  exists pre mid post : string,
    text = pre +:+ mid +:+ post /\ lower mid = lower word.

(** ** Python values *)

Inductive pyval : Type :=
| PNone
| PBool (b : bool)
| PInt (n : Z)
| PStr (s : string)
| PList (l : list pyval)
| PDict (m : gmap string pyval).

(** Uncaught Python exceptions the modelled code can raise. *)
Inductive pyexn : Type :=
| AttributeError
| TypeError
| ValueError.

(** Result of running a piece of Python: a value, an uncaught exception, or
    no result within the allotted number of loop iterations. *)
Inductive res (A : Type) : Type :=
| Ok (a : A)
| Raise (e : pyexn)
| Diverge.
Arguments Ok {A} a.
Arguments Raise {A} e.
Arguments Diverge {A}.

(** [d.get(key, dflt)]: only a dict has the method. *)
Definition py_get (d : pyval) (key : string) (dflt : pyval) : res pyval :=
  match d with
  | PDict m => Ok (default dflt (m !! key))
  | _ => Raise AttributeError
  end.

(** ** Field extractor (lines 62-82) *)

Record filtered_record : Type := {
  business_name : pyval;
  registration_id : pyval;
  status : pyval;
  filing_date : pyval;
  agent_name : pyval;
  agent_address : pyval;
  agent_email : pyval
}.

Definition res_bind {A B} (r : res A) (k : A -> res B) : res B :=
  match r with
  | Ok a => k a
  | Raise e => Raise e
  | Diverge => Diverge
  end.

Notation "'let?' x ':=' r 'in' k" := (res_bind r (fun x => k))
  (at level 10, x name, r at level 100, k at level 200).

Definition extract_needed_fields (result : pyval) : res filtered_record :=
  let? agent := py_get result "agent" (PDict ∅) in
  let? bn := py_get result "businessName" (PStr "") in
  let? ri := py_get result "registrationId" (PStr "") in
  let? st := py_get result "status" (PStr "") in
  let? fd := py_get result "filingDate" (PStr "") in
  let? an := py_get agent "name" (PStr "") in
  let? aa := py_get agent "address" (PStr "") in
  let? ae := py_get agent "email" (PStr "") in
  Ok {| business_name := bn; registration_id := ri; status := st;
        filing_date := fd; agent_name := an; agent_address := aa;
        agent_email := ae |}.

(** [len(v)] *)
Definition py_len (v : pyval) : res nat :=
  match v with
  | PList l => Ok (length l)
  | PDict m => Ok (size m)
  | PStr s => Ok (String.length s)
  | PNone | PBool _ | PInt _ => Raise TypeError
  end.

(** [v.lower()]: only a [str] has the method. *)
Definition py_lower (v : pyval) : res string :=
  match v with
  | PStr s => Ok (lower s)
  | _ => Raise AttributeError
  end.

Fixpoint chars (s : string) : list pyval :=
  match s with
  | EmptyString => []
  | String c s' => PStr (String c EmptyString) :: chars s'
  end.

(** The items [for result in v] walks through: the elements of a list, the
    keys of a dict (the order of the keys is not modelled), the characters
    of a string. *)
Definition py_iter (v : pyval) : res (list pyval) :=
  match v with
  | PList l => Ok l
  | PDict m => Ok (PStr <$> (map_to_list m).*1)
  | PStr s => Ok (chars s)
  | PNone | PBool _ | PInt _ => Raise TypeError
  end.

(** The integer a Python number stands for in a comparison with an [int];
    [bool] is a subclass of [int]. *)
Definition py_int (v : pyval) : res Z :=
  match v with
  | PInt n => Ok n
  | PBool b => Ok (Z.b2z b)
  | _ => Raise TypeError
  end.

(** [n >= v] and [n <= v] for an int [n] *)
Definition py_ge (n : Z) (v : pyval) : res bool :=
  let? k := py_int v in Ok (k <=? n).

Definition py_le (n : Z) (v : pyval) : res bool :=
  let? k := py_int v in Ok (n <=? k).

(** [[f(x) for x in l]]: the first exception ends the comprehension. *)
Fixpoint map_res {A B} (f : A -> res B) (l : list A) : res (list B) :=
  match l with
  | [] => Ok []
  | x :: l' => let? y := f x in let? ys := map_res f l' in Ok (y :: ys)
  end.

(** ** The world: network, operator, log and output file *)

(** The parameters and the session header of one GET (lines 118-131). *)
Record request : Type := {
  req_q : string;
  req_page : Z;
  req_session : string
}.

(** Body of a response as [response.json()] sees it. *)
Inductive body : Type :=
| JsonBody (data : pyval)
| NotJson (text : string).   (* [str] of the JSONDecodeError raised *)

(** What [requests.get(..., timeout=30)] does.  [http_error] is the [str] of
    the HTTPError that [raise_for_status()] builds for a 4xx or 5xx answer
    (status, reason phrase and URL).  Decoding errors are those of
    requests >= 2.27, where JSONDecodeError is a RequestException. *)
Inductive http_outcome : Type :=
| Response (status_code : Z) (http_error : string) (content : body)
| TimeoutExc                                   (* requests.exceptions.Timeout *)
| RequestExc (text : string) (response_status : option Z).
                               (* any other RequestException [e]: [str(e)]
                                  and the status of [e.response], if any *)

Inductive status_tag : Type :=
| SUCCESS | ERROR | RETRY | SESSION_START | NEW_SESSION | STOPPED | COMPLETED.

(** The [page] column of a log line: a page number, ["START"] or
    [f"1-{total_pages}"]. *)
Inductive page_marker : Type :=
| AtPage (p : Z)
| AtStart
| PageSpan (total_pages : pyval).

(** The [extra_info] column of a log line, one constructor per message of
    the source, carrying the values the message interpolates. *)
Inductive log_info : Type :=
| Forbidden403                           (* 403 Forbidden - Session expired or ReCAPTCHA required *)
| SessionErrorBody (error : pyval)       (* Session/ReCAPTCHA error: {data.get('error')} *)
| Retrieved (n : nat)                    (* Retrieved {len(...)} results *)
| TimeoutAfter (attempts : Z)            (* Timeout after {max_retries + 1} attempts *)
| TimeoutAttempt (k n : Z)               (* Timeout, attempt {attempt + 1}/{max_retries + 1} *)
| SessionErrorExc (e : string)           (* Session/ReCAPTCHA error: {e} *)
| FailedAfter (attempts : Z) (e : string)  (* Failed after {max_retries + 1} attempts: {e} *)
| AttemptFailed (k n : Z) (e : string)   (* Attempt {attempt + 1}/{max_retries + 1}: {e} *)
| StartingScrape (query : string)        (* Starting scrape for query: {query} *)
| UserQuit                               (* User chose to quit *)
| Resuming (page : Z)                    (* Entered new session ID, resuming from page {current_page} *)
| FailedAfterRetries                     (* Failed after retries *)
| AllFetched (total : Z).                (* All pages fetched, total results: {total} *)

Record log_entry : Type := {
  log_query : string;
  log_page : page_marker;
  log_status : status_tag;
  log_extra : log_info
}.

(** Everything the program does to its surroundings, in order. *)
Inductive event : Type :=
| EvGet (r : request)
| EvLog (e : log_entry)
| EvSleep (seconds : Q)
| EvInput (line : string).

(** [server n r] is the outcome of the [n]-th GET of the run when it carries
    request [r]; [operator n] is the [n]-th line typed at the prompt. *)
Record world : Type := {
  server : nat -> request -> http_outcome;
  operator : nat -> string;
  requests_made : nat;
  inputs_read : nat;
  trace : list event;
  output_file : list filtered_record   (* content of search_results/output.json *)
}.

Definition emit (e : event) (w : world) : world :=
  {| server := server w; operator := operator w;
     requests_made := requests_made w; inputs_read := inputs_read w;
     trace := trace w ++ [e]; output_file := output_file w |}.

Definition M (A : Type) : Type := world -> res A * world.

Definition ret {A} (a : A) : M A := fun w => (Ok a, w).

Definition bind {A B} (m : M A) (k : A -> M B) : M B :=
  fun w =>
    match m w with
    | (Ok a, w') => k a w'
    | (Raise e, w') => (Raise e, w')
    | (Diverge, w') => (Diverge, w')
    end.

Definition lift {A} (r : res A) : M A := fun w => (r, w).

Notation "'do' x <- m ; k" := (bind m (fun x => k))
  (at level 10, x name, m at level 100, k at level 200).
Notation "m ;; k" := (bind m (fun _ => k))
  (at level 100, k at level 200, right associativity).

(** [requests.get(url, params=params, headers=headers, timeout=30)] *)
Definition http_get (r : request) : M http_outcome :=
  fun w =>
    (Ok (server w (requests_made w) r),
     emit (EvGet r)
       {| server := server w; operator := operator w;
          requests_made := S (requests_made w); inputs_read := inputs_read w;
          trace := trace w; output_file := output_file w |}).

(** [log_message] (lines 40-60): one line appended to the log. *)
Definition log_message (query : string) (page : page_marker)
    (status : status_tag) (extra_info : log_info) : M unit :=
  fun w =>
    (Ok tt,
     emit (EvLog {| log_query := query; log_page := page;
                    log_status := status; log_extra := extra_info |}) w).

(** [time.sleep(secs)] raises ValueError on a negative length. *)
Definition time_sleep (secs : Q) : M unit :=
  fun w =>
    if Qle_bool 0 secs then (Ok tt, emit (EvSleep secs) w)
    else (Raise ValueError, w).

(** [input(prompt)] *)
Definition input : M string :=
  fun w =>
    let line := operator w (inputs_read w) in
    (Ok line,
     emit (EvInput line)
       {| server := server w; operator := operator w;
          requests_made := requests_made w; inputs_read := S (inputs_read w);
          trace := trace w; output_file := output_file w |}).

(** [append_results_to_file] (lines 84-101): read, extend, write back. *)
Definition append_results_to_file (results : list filtered_record) : M unit :=
  fun w =>
    (Ok tt,
     {| server := server w; operator := operator w;
        requests_made := requests_made w; inputs_read := inputs_read w;
        trace := trace w; output_file := output_file w ++ results |}).

(** ** Page fetcher (lines 103-185) *)

(** The second component of [fetch_page]'s result: ['timeout'], ['403'] or
    ['other']. *)
Inductive error_type : Type :=
| Etimeout
| E403
| Eother.

(** How one pass through the body of the [while] ends: a [return], or the
    fall-through after [attempt += 1; time.sleep(2)]. *)
Inductive attempt_end : Type :=
| Return (data : pyval) (err : option error_type)
| Retry.

Definition backoff : Q := inject_Z 2.

(** [except requests.exceptions.Timeout] (lines 159-166) *)
Definition on_timeout (query : string) (page max_retries attempt : Z)
    : M attempt_end :=
  if attempt >=? max_retries then
    log_message query (AtPage page) ERROR (TimeoutAfter (max_retries + 1)) ;;
    ret (Return PNone (Some Etimeout))
  else
    log_message query (AtPage page) RETRY
      (TimeoutAttempt (attempt + 1) (max_retries + 1)) ;;
    time_sleep backoff ;;
    ret Retry.

(** Truth value of [e.response and e.response.status_code == 403]: a
    Response is true only when its status is no 4xx or 5xx. *)
Definition response_is_403 (response_status : option Z) : bool :=
  match response_status with
  | None => false
  | Some s => negb ((400 <=? s) && (s <? 600)) && (s =? 403)
  end.

(** [except requests.exceptions.RequestException as e] (lines 168-183) *)
Definition on_request_exception (query : string) (page max_retries attempt : Z)
    (e : string) (response_status : option Z) : M attempt_end :=
  let error_str := lower e in
  if contains "recaptcha" error_str || contains "session" error_str
     || response_is_403 response_status then
    log_message query (AtPage page) ERROR (SessionErrorExc e) ;;
    ret (Return PNone (Some E403))
  else if attempt >=? max_retries then
    log_message query (AtPage page) ERROR (FailedAfter (max_retries + 1) e) ;;
    ret (Return PNone (Some Eother))
  else
    log_message query (AtPage page) RETRY
      (AttemptFailed (attempt + 1) (max_retries + 1) e) ;;
    time_sleep backoff ;;
    ret Retry.

(** Lines 156-157. *)
Definition report_success (query : string) (page : Z) (data : pyval)
    : M attempt_end :=
  do results <- lift (py_get data "results" (PList [])) ;
  do n <- lift (py_len results) ;
  log_message query (AtPage page) SUCCESS (Retrieved n) ;;
  ret (Return data None).

(** Lines 149-157, once [data = response.json()] is there.  On a list or a
    string, ['error' in data] has a truth value but each branch then calls
    [data.get], which those types lack; on None, a bool or an int the test
    itself is a TypeError. *)
Definition check_body (query : string) (page : Z) (data : pyval)
    : M attempt_end :=
  match data with
  | PDict m =>
      if decide (is_Some (m !! "error")) then
        do error_msg <- lift (let? v := py_get data "error" (PStr "") in
                              py_lower v) ;
        if contains "recaptcha" error_msg || contains "session" error_msg then
          do err <- lift (py_get data "error" PNone) ;
          log_message query (AtPage page) ERROR (SessionErrorBody err) ;;
          ret (Return PNone (Some E403))
        else report_success query page data
      else report_success query page data
  | PList _ | PStr _ => lift (Raise AttributeError)
  | PNone | PBool _ | PInt _ => lift (Raise TypeError)
  end.

(** One pass through the body of the [while] (lines 135-183). *)
Definition fetch_attempt (query : string) (page : Z) (session_id : string)
    (max_retries attempt : Z) : M attempt_end :=
  do outcome <- http_get {| req_q := query; req_page := page;
                            req_session := session_id |} ;
  match outcome with
  | TimeoutExc => on_timeout query page max_retries attempt
  | RequestExc e st => on_request_exception query page max_retries attempt e st
  | Response status_code http_error content =>
      if status_code =? 403 then
        log_message query (AtPage page) ERROR Forbidden403 ;;
        ret (Return PNone (Some E403))
      else if (400 <=? status_code) && (status_code <? 600) then
        (* raise_for_status() *)
        on_request_exception query page max_retries attempt
          http_error (Some status_code)
      else
        match content with
        | NotJson e =>
            on_request_exception query page max_retries attempt e None
        | JsonBody data => check_body query page data
        end
  end.

(** The [while attempt <= max_retries] loop; [fuel] bounds the number of
    passes, and line 185 is the exit through the loop condition. *)
Fixpoint fetch_loop (fuel : nat) (query : string) (page : Z)
    (session_id : string) (max_retries attempt : Z)
    : M (pyval * option error_type) :=
  match fuel with
  | O => lift Diverge
  | S fuel' =>
      if attempt <=? max_retries then
        do r <- fetch_attempt query page session_id max_retries attempt ;
        match r with
        | Return data err => ret (data, err)
        | Retry =>
            fetch_loop fuel' query page session_id max_retries (attempt + 1)
        end
      else ret (PNone, Some Eother)
  end.

(** [fetch_page(query, page, session_id, log_file, max_retries)]: the loop
    makes at most [max_retries + 1] passes and one more test of its
    condition. *)
Definition fetch_page (query : string) (page : Z) (session_id : string)
    (max_retries : Z) : M (pyval * option error_type) :=
  fetch_loop (S (Z.to_nat (max_retries + 1))) query page session_id
    max_retries 0.

(** ** Pagination driver (lines 187-276) *)

(** The local variables of [fetch_all_pages] the loop updates;
    [total_pages = PNone] is Python's [None], "not known yet". *)
Record driver_state : Type := {
  session_id : string;
  current_page : Z;
  total_pages : pyval;
  total_results_collected : Z
}.

(** The spec's names for the two ways the run ends. *)
Inductive terminal : Type :=
| DONE
| STOPPED_RUN.

(** How one pass through [while True] ends: [continue] or the end of the
    body, or one of the three [break]s. *)
Inductive loop_end : Type :=
| Continue (st : driver_state)
| Break (t : terminal) (st : driver_state).

(** The retry budget the driver leaves at the default of [fetch_page]. *)
Definition default_max_retries : Z := 2.

(** Lines 223-240: the operator is asked for a new session id. *)
Definition await_credential (query : string) (st : driver_state) : M loop_end :=
  do line <- input ;
  let new_session_id := strip line in
  if String.eqb (lower new_session_id) "quit" then
    log_message query (AtPage (current_page st)) STOPPED UserQuit ;;
    ret (Break STOPPED_RUN st)
  else
    log_message query (AtPage (current_page st)) NEW_SESSION
      (Resuming (current_page st)) ;;
    ret (Continue {| session_id := new_session_id;
                     current_page := current_page st;
                     total_pages := total_pages st;
                     total_results_collected := total_results_collected st |}).

(** Lines 242-244. *)
Definition stop_after_retries (query : string) (st : driver_state) : M loop_end :=
  log_message query (AtPage (current_page st)) STOPPED FailedAfterRetries ;;
  ret (Break STOPPED_RUN st).

(** Lines 246-250: the page count is read only while it is still None. *)
Definition capture_total_pages (st : driver_state) (page_data : pyval)
    : M pyval :=
  match total_pages st with
  | PNone =>
      do tp <- lift (py_get page_data "totalPages" (PInt 1)) ;
      do _ <- lift (py_get page_data "total" (PInt 0)) ;
      ret tp
  | tp => ret tp
  end.

(** Lines 262-274, with the running total already updated. *)
Definition advance (query : string) (delay : Q) (sid : string) (page : Z)
    (tp : pyval) (collected : Z) : M loop_end :=
  do last <- lift (py_ge page tp) ;
  if last then
    log_message query (PageSpan tp) COMPLETED (AllFetched collected) ;;
    ret (Break DONE {| session_id := sid; current_page := page;
                       total_pages := tp;
                       total_results_collected := collected |})
  else
    let page' := page + 1 in
    do more <- lift (py_le page' tp) ;
    (if more then time_sleep delay else ret tt) ;;
    ret (Continue {| session_id := sid; current_page := page';
                     total_pages := tp;
                     total_results_collected := collected |}).

(** Lines 246-274: a fetched page is filtered, written out and counted. *)
Definition process_page (query : string) (delay : Q) (st : driver_state)
    (page_data : pyval) : M loop_end :=
  do tp <- capture_total_pages st page_data ;
  do raw_results <- lift (py_get page_data "results" (PList [])) ;
  do filtered_results <- lift (let? items := py_iter raw_results in
                               map_res extract_needed_fields items) ;
  append_results_to_file filtered_results ;;
  let collected :=
    total_results_collected st + Z.of_nat (length filtered_results) in
  advance query delay (session_id st) (current_page st) tp collected.

(** One pass through the body of [while True] (lines 218-274). *)
Definition loop_body (query : string) (delay : Q) (st : driver_state)
    : M loop_end :=
  do r <- fetch_page query (current_page st) (session_id st)
            default_max_retries ;
  match r with
  | (PNone, error_type) =>
      match error_type with
      | Some Etimeout | Some E403 => await_credential query st
      | Some Eother | None => stop_after_retries query st
      end
  | (page_data, _) => process_page query delay st page_data
  end.

(** The [while True] loop; [fuel] bounds the number of passes.  The result
    is the state at the [break]. *)
Fixpoint run_loop (fuel : nat) (query : string) (delay : Q)
    (st : driver_state) : M (terminal * driver_state) :=
  match fuel with
  | O => lift Diverge
  | S fuel' =>
      do r <- loop_body query delay st ;
      match r with
      | Continue st' => run_loop fuel' query delay st'
      | Break t st' => ret (t, st')
      end
  end.

(** [fetch_all_pages(query, session_id, start_datetime, start_page, delay)]
    returns [total_results_collected]; the output file that is absent is
    the empty one. *)
Definition fetch_all_pages (fuel : nat) (query session : string)
    (start_page : Z) (delay : Q) : M Z :=
  log_message query AtStart SESSION_START (StartingScrape query) ;;
  do r <- run_loop fuel query delay
            {| session_id := session; current_page := start_page;
               total_pages := PNone; total_results_collected := 0 |} ;
  ret (total_results_collected (snd r)).

(** The start-up check of [main] on the session id (lines 292-295): the
    stripped line is used unless it is empty. *)
Definition main_session_check (line : string) : option string :=
  let sid := strip line in
  if String.eqb sid "" then None else Some sid.

(** ** Vocabulary of the statements *)

(** The world after [gets] more requests, [inputs] more lines read and the
    events [evs]. *)
Definition later (w : world) (gets inputs : nat) (evs : list event) : world :=
  {| server := server w; operator := operator w;
     requests_made := gets + requests_made w;
     inputs_read := inputs + inputs_read w;
     trace := trace w ++ evs; output_file := output_file w |}.

(** The world after the records [batch] went to the output file. *)
Definition written (w : world) (batch : list filtered_record) : world :=
  {| server := server w; operator := operator w;
     requests_made := requests_made w; inputs_read := inputs_read w;
     trace := trace w; output_file := output_file w ++ batch |}.

(** [w'] is a later stage of [w]: the same network and operator, counters
    that only went up, a trace and an output file that only grew. *)
Definition extends (w w' : world) : Prop :=
  server w' = server w /\ operator w' = operator w
  /\ (requests_made w <= requests_made w')%nat
  /\ (inputs_read w <= inputs_read w')%nat
  /\ (exists evs : list event, trace w' = trace w ++ evs)
  /\ (exists batch : list filtered_record,
        output_file w' = output_file w ++ batch).

Definition monotone {A} (m : M A) : Prop := forall w, extends w (snd (m w)).

(** A computation that neither writes to the output file nor reads from
    the operator. *)
Definition quiet {A} (m : M A) : Prop :=
  forall w, output_file (snd (m w)) = output_file w
            /\ inputs_read (snd (m w)) = inputs_read w.

Definition logged (query : string) (page : page_marker) (status : status_tag)
    (extra : log_info) : event :=
  EvLog {| log_query := query; log_page := page; log_status := status;
           log_extra := extra |}.

(** The spec's words for a response that invalidates the session: status
    403, or a 2xx status with a body whose error field is a text that
    mentions "recaptcha" or "session". *)
Definition session_invalid_response (status_code : Z) (content : body) : Prop :=
  status_code = 403
  \/ (200 <= status_code < 300
      /\ exists (m : gmap string pyval) (text : string),
           content = JsonBody (PDict m)
           /\ m !! "error" = Some (PStr text)
           /\ (mentions text "recaptcha" \/ mentions text "session")).

(** The spec's words for the extractor: a field is the value at its key when
    that value is a string, and the empty string otherwise. *)
Definition key_of (v : pyval) (key : string) : option pyval :=
  match v with
  | PDict m => m !! key
  | _ => None
  end.

Definition string_or_empty (o : option pyval) : pyval :=
  match o with
  | Some (PStr s) => PStr s
  | _ => PStr ""
  end.

Definition extractor_as_specified (raw : pyval) : filtered_record :=
  let agent := default PNone (key_of raw "agent") in
  {| business_name := string_or_empty (key_of raw "businessName");
     registration_id := string_or_empty (key_of raw "registrationId");
     status := string_or_empty (key_of raw "status");
     filing_date := string_or_empty (key_of raw "filingDate");
     agent_name := string_or_empty (key_of agent "name");
     agent_address := string_or_empty (key_of agent "address");
     agent_email := string_or_empty (key_of agent "email") |}.

(** The agent sub-object the extractor reads: the empty one when the key is
    missing; nothing when the value is no object. *)
Definition agent_of (m : gmap string pyval) : option (gmap string pyval) :=
  match m !! "agent" with
  | None => Some ∅
  | Some (PDict a) => Some a
  | Some _ => None
  end.

(** The log detail of a session-invalidating response. *)
Definition session_error_info (status_code : Z) (content : body) : log_info :=
  if status_code =? 403 then Forbidden403
  else match content with
       | JsonBody d => SessionErrorBody (default PNone (key_of d "error"))
       | NotJson _ => Forbidden403
       end.

(** The events of a fetch whose [S n] remaining attempts all time out, the
    first of them being attempt number [attempt]. *)
Fixpoint timeout_events (query : string) (page : Z) (sid : string)
    (max_retries : Z) (n : nat) (attempt : Z) : list event :=
  let get := EvGet {| req_q := query; req_page := page; req_session := sid |} in
  match n with
  | O => [get; logged query (AtPage page) ERROR (TimeoutAfter (max_retries + 1))]
  | S n' =>
      get :: logged query (AtPage page) RETRY
               (TimeoutAttempt (attempt + 1) (max_retries + 1))
          :: EvSleep backoff
          :: timeout_events query page sid max_retries n' (attempt + 1)
  end.

Definition state_of (r : loop_end) : driver_state :=
  match r with
  | Continue st => st
  | Break _ st => st
  end.

Definition is_get (e : event) : bool :=
  match e with EvGet _ => true | _ => false end.

Definition is_log (e : event) : bool :=
  match e with EvLog _ => true | _ => false end.

(** [continues query delay st w st' w']: some passes through [while True],
    none of them ending the loop, lead from [st] in world [w] to [st'] in
    world [w']. *)
Inductive continues (query : string) (delay : Q)
    : driver_state -> world -> driver_state -> world -> Prop :=
| continues_here st w : continues query delay st w st w
| continues_pass st w st1 w1 st2 w2 :
    loop_body query delay st w = (Ok (Continue st1), w1) ->
    continues query delay st1 w1 st2 w2 ->
    continues query delay st w st2 w2.

(** ** Sample worlds *)

Definition fresh_world (srv : nat -> request -> http_outcome)
    (op : nat -> string) : world :=
  {| server := srv; operator := op; requests_made := 0; inputs_read := 0;
     trace := []; output_file := [] |}.

(** A network on which every request times out. *)
Definition all_timeouts : world :=
  fresh_world (fun _ _ => TimeoutExc) (fun _ => "quit").

(** A 200 answer that complains about the captcha. *)
Definition captcha_body : gmap string pyval :=
  {[ "error" := PStr "ReCAPTCHA verification required" ]}.

Definition captcha_world : world :=
  fresh_world (fun _ _ => Response 200 "" (JsonBody (PDict captcha_body)))
    (fun _ => "quit").

(** A 200 answer with an error field about something else, and one record. *)
Definition warning_body : gmap string pyval :=
  {[ "error" := PStr "partial index";
     "results" := PList [PDict {[ "businessName" := PStr "Acme Sub" ]}] ]}.

Definition warning_world : world :=
  fresh_world (fun _ _ => Response 200 "" (JsonBody (PDict warning_body)))
    (fun _ => "quit").

Definition acme_sub : filtered_record :=
  {| business_name := PStr "Acme Sub"; registration_id := PStr "";
     status := PStr ""; filing_date := PStr ""; agent_name := PStr "";
     agent_address := PStr ""; agent_email := PStr "" |}.

(** Every request is refused with 403; the operator types what [op] says. *)
Definition forbidden_world (op : nat -> string) : world :=
  fresh_world (fun _ _ => Response 403 "" (NotJson "")) op.

(** A page without [totalPages] and with one record. *)
Definition lone_page : gmap string pyval :=
  {[ "results" := PList [PDict {[ "businessName" := PStr "Acme Sub" ]}] ]}.

Definition lone_world : world :=
  fresh_world (fun _ _ => Response 200 "" (JsonBody (PDict lone_page)))
    (fun _ => "quit").

(** The two pages of the spec's end-to-end scenario. *)
Definition acme_llc_raw : pyval :=
  PDict {[ "businessName" := PStr "Acme LLC"; "registrationId" := PStr "123";
           "status" := PStr "active"; "filingDate" := PStr "2020-01-01";
           "agent" := PDict {[ "name" := PStr "J. Roe";
                               "address" := PStr "1 Main St";
                               "email" := PStr "j@acme.com" ]} ]}.

Definition acme_llc : filtered_record :=
  {| business_name := PStr "Acme LLC"; registration_id := PStr "123";
     status := PStr "active"; filing_date := PStr "2020-01-01";
     agent_name := PStr "J. Roe"; agent_address := PStr "1 Main St";
     agent_email := PStr "j@acme.com" |}.

Definition acme_page (records : list pyval) : pyval :=
  PDict {[ "results" := PList records; "total" := PInt 2;
           "totalPages" := PInt 2 ]}.

Definition acme_world : world :=
  fresh_world
    (fun _ r =>
       if req_page r =? 1
       then Response 200 "" (JsonBody (acme_page [acme_llc_raw]))
       else Response 200 ""
              (JsonBody (acme_page
                           [PDict {[ "businessName" := PStr "Acme Sub" ]}])))
    (fun _ => "quit").

(** The state after the first page of the scenario went through. *)
Definition acme_after_first : driver_state :=
  {| session_id := "tok"; current_page := 2; total_pages := PInt 2;
     total_results_collected := 1 |}.

Definition start_state (session : string) (start_page : Z) : driver_state :=
  {| session_id := session; current_page := start_page;
     total_pages := PNone; total_results_collected := 0 |}.

(** The state with the credential replaced and nothing else touched. *)
Definition with_session (st : driver_state) (sid : string) : driver_state :=
  {| session_id := sid; current_page := current_page st;
     total_pages := total_pages st;
     total_results_collected := total_results_collected st |}.

(** C6 in the spec's words, for a cursor [page] and a page count [total]:
    the driver ends with DONE exactly when the two are equal. *)
Definition advancing_as_specified (page total : Z) : Prop :=
  forall query delay sid collected w,
    (exists st' w',
        advance query delay sid page (PInt total) collected w
        = (Ok (Break DONE st'), w'))
    <-> page = total.

(** ** The rest of the program *)

Definition newline : string := String (ascii_of_nat 10) EmptyString.

(** The entry [log_message] builds (lines 52-55), its arguments already
    turned into text as the f-string does; an empty [extra_info] leaves the
    last column out. *)
Definition log_line (datetime_str query page status extra_info : string)
    : string :=
  if String.eqb extra_info "" then
    datetime_str +:+ " UTC | Query: " +:+ query +:+ " | Page: " +:+ page
      +:+ " | Status: " +:+ status +:+ newline
  else
    datetime_str +:+ " UTC | Query: " +:+ query +:+ " | Page: " +:+ page
      +:+ " | Status: " +:+ status +:+ " | " +:+ extra_info +:+ newline.

(** What line 60 prints: [log_entry.strip()]. *)
Definition console_line (datetime_str query page status extra_info : string)
    : string :=
  strip (log_line datetime_str query page status extra_info).

Fixpoint has_newline (s : string) : bool :=
  match s with
  | EmptyString => false
  | String c s' => (nat_of_ascii c =? 10)%nat || has_newline s'
  end.

(** [main] (lines 278-322).  [parse_int] and [parse_float] stand for the
    builtins [int] and [float] on a string that is not empty; the start time
    handed to [fetch_all_pages] plays no part there.  The result is [None]
    where [main] returns early and the total otherwise. *)
Definition main (parse_int : string -> res Z) (parse_float : string -> res Q)
    (fuel : nat) : M (option Z) :=
  do line <- input ;
  let query := strip line in
  if String.eqb query "" then ret None
  else
    do line <- input ;
    match main_session_check line with
    | None => ret None
    | Some session =>
        do line <- input ;
        let start_page_input := strip line in
        do start_page <- lift (if String.eqb start_page_input "" then Ok 1
                               else parse_int start_page_input) ;
        do line <- input ;
        let delay_input := strip line in
        do delay <- lift (if String.eqb delay_input "" then Ok (inject_Z 1)
                          else parse_float delay_input) ;
        do total <- fetch_all_pages fuel query session start_page delay ;
        ret (Some total)
    end.

(** ** Vocabulary of the further statements *)

(** The test of line 173 on the text of an exception. *)
Definition session_words (e : string) : bool :=
  contains "recaptcha" (lower e) || contains "session" (lower e).

(** The text of the RequestException, other than a Timeout, that an outcome
    of the GET ends in: the exception of the GET itself, the HTTPError of a
    4xx or 5xx status other than 403, or the decoding error of the body. *)
Definition request_exception_text (o : http_outcome) : option string :=
  match o with
  | TimeoutExc => None
  | RequestExc e _ => Some e
  | Response status_code http_error content =>
      if status_code =? 403 then None
      else if (400 <=? status_code) && (status_code <? 600) then Some http_error
      else match content with
           | NotJson e => Some e
           | JsonBody _ => None
           end
  end.

(** The two kinds of failure the fetcher retries. *)
Inductive failure : Type :=
| TimedOut
| Failed (e : string).

Definition failure_of (o : http_outcome) : option failure :=
  match o with
  | TimeoutExc => Some TimedOut
  | _ =>
      match request_exception_text o with
      | Some e => if session_words e then None else Some (Failed e)
      | None => None
      end
  end.

Definition failure_error (f : failure) : error_type :=
  match f with
  | TimedOut => Etimeout
  | Failed _ => Eother
  end.

Definition retry_info (max_retries attempt : Z) (f : failure) : log_info :=
  match f with
  | TimedOut => TimeoutAttempt (attempt + 1) (max_retries + 1)
  | Failed e => AttemptFailed (attempt + 1) (max_retries + 1) e
  end.

Definition final_info (max_retries : Z) (f : failure) : log_info :=
  match f with
  | TimedOut => TimeoutAfter (max_retries + 1)
  | Failed e => FailedAfter (max_retries + 1) e
  end.

(** The events of [k] attempts that fail with [fs 0], ..., [fs (k - 1)] and
    are retried, the first of them being attempt number [attempt]. *)
Fixpoint retry_events (query : string) (page : Z) (sid : string)
    (max_retries : Z) (fs : nat -> failure) (k : nat) (attempt : Z)
    : list event :=
  match k with
  | O => []
  | S k' =>
      EvGet {| req_q := query; req_page := page; req_session := sid |}
      :: logged query (AtPage page) RETRY (retry_info max_retries attempt (fs O))
      :: EvSleep backoff
      :: retry_events query page sid max_retries (fun j => fs (S j)) k'
           (attempt + 1)
  end.

(** An answer the fetcher takes for a page: a JSON object without an
    [error] key, under a status that is neither 403 nor another 4xx or 5xx;
    [results] is the list under its [results] key, empty when the key is
    missing. *)
Definition answers_page (o : http_outcome) (m : gmap string pyval)
    (results : list pyval) : Prop :=
  exists (status_code : Z) (http_error : string),
    o = Response status_code http_error (JsonBody (PDict m))
    /\ status_code <> 403
    /\ ~ (400 <= status_code < 600)
    /\ m !! "error" = None
    /\ default (PList []) (m !! "results") = PList results.

(** The exception a decoded body that is no object ends the fetch with. *)
Definition body_exception (d : pyval) : pyexn :=
  match d with
  | PList _ | PStr _ => AttributeError
  | _ => TypeError
  end.

(** The events of a run over [S n] pages from page [p] on, all fetched at
    the first attempt, up to the last SUCCESS line; [raw p] is the list of
    records of page [p]. *)
Fixpoint pages_events (query sid : string) (delay : Q)
    (raw : Z -> list pyval) (n : nat) (p : Z) : list event :=
  EvGet {| req_q := query; req_page := p; req_session := sid |}
  :: logged query (AtPage p) SUCCESS (Retrieved (length (raw p)))
  :: match n with
     | O => []
     | S n' => EvSleep delay :: pages_events query sid delay raw n' (p + 1)
     end.

(** The filtered records of the pages [p], ..., [p + n]. *)
Fixpoint pages_records (filt : Z -> list filtered_record) (n : nat) (p : Z)
    : list filtered_record :=
  filt p ++ match n with
            | O => []
            | S n' => pages_records filt n' (p + 1)
            end.

(** More sample worlds. *)

(** Two timeouts, then a refused connection. *)
Definition flaky_world : world :=
  fresh_world
    (fun n _ => if (n <? 2)%nat then TimeoutExc
                else RequestExc "Connection refused" None)
    (fun _ => "quit").

(** One timeout, then the lone page. *)
Definition slow_world : world :=
  fresh_world
    (fun n _ => if (n <? 1)%nat then TimeoutExc
                else Response 200 "" (JsonBody (PDict lone_page)))
    (fun _ => "quit").

(** A server error whose text carries the word "session", as the URL of a
    search for "session" does. *)
Definition session_query_world : world :=
  fresh_world
    (fun _ _ =>
       Response 500
         "500 Server Error: Internal Server Error for url: /api/search?q=session&page=1"
         (NotJson ""))
    (fun _ => "quit").

(** A body that is a JSON list. *)
Definition list_body_world : world :=
  fresh_world (fun _ _ => Response 200 "" (JsonBody (PList []))) (fun _ => "quit").

(** A page whose only record has a null agent. *)
Definition null_agent_page : gmap string pyval :=
  {[ "results" := PList [PDict {[ "businessName" := PStr "Acme";
                                  "agent" := PNone ]}] ]}.

(** A page whose page count is a text. *)
Definition text_count_page : gmap string pyval :=
  {[ "results" := PList [PDict {[ "businessName" := PStr "Acme Sub" ]}];
     "totalPages" := PStr "5" ]}.

(** The operator's lines of a session of [main]: the query, the session id,
    and two empty lines for the defaults. *)
Definition operator_script (n : nat) : string :=
  match n with
  | O => " acme "
  | 1%nat => "tok"
  | _ => ""
  end.

(** A network that answers every request with the page the request asks
    for, [page_of p] for page [p], under a status the fetcher lets pass. *)
Definition serves_pages (page_of : Z -> gmap string pyval) (w : world) : Prop :=
  forall (n : nat) (r : request),
    exists (status_code : Z) (http_error : string),
      server w n r
      = Response status_code http_error (JsonBody (PDict (page_of (req_page r))))
      /\ status_code <> 403 /\ ~ (400 <= status_code < 600).

(** Pages without an [error] key, whose results are the lists [raw p] of
    records that the extractor turns into [filt p]. *)
Definition well_formed_pages (page_of : Z -> gmap string pyval)
    (raw : Z -> list pyval) (filt : Z -> list filtered_record) : Prop :=
  forall p : Z,
    page_of p !! "error" = None
    /\ default (PList []) (page_of p !! "results") = PList (raw p)
    /\ map_res extract_needed_fields (raw p) = Ok (filt p).

(** The page count is [N] already, or the page under the cursor is about
    to say so. *)
Definition count_settles (page_of : Z -> gmap string pyval) (N : Z)
    (st : driver_state) : Prop :=
  total_pages st = PInt N
  \/ (total_pages st = PNone
      /\ page_of (current_page st) !! "totalPages" = Some (PInt N)).

(** The pages of the end-to-end scenario, as the server of [acme_world]
    hands them out. *)
Definition acme_pages (p : Z) : gmap string pyval :=
  if p =? 1
  then {[ "results" := PList [acme_llc_raw]; "total" := PInt 2;
          "totalPages" := PInt 2 ]}
  else {[ "results" := PList [PDict {[ "businessName" := PStr "Acme Sub" ]}];
          "total" := PInt 2; "totalPages" := PInt 2 ]}.

Definition acme_raw (p : Z) : list pyval :=
  if p =? 1 then [acme_llc_raw]
  else [PDict {[ "businessName" := PStr "Acme Sub" ]}].

Definition acme_filtered (p : Z) : list filtered_record :=
  if p =? 1 then [acme_llc] else [acme_sub].

(** The events a fetch of page [p] for query [q] under credential [s] may
    leave: the request for that very page, a SUCCESS, ERROR or RETRY line
    about that page, a sleep of the backoff. *)
Definition fetch_event (q : string) (p : Z) (s : string) (e : event) : Prop :=
  match e with
  | EvGet r => r = {| req_q := q; req_page := p; req_session := s |}
  | EvLog l =>
      log_query l = q /\ log_page l = AtPage p
      /\ (log_status l = SUCCESS \/ log_status l = ERROR
          \/ log_status l = RETRY)
  | EvSleep d => d = backoff
  | EvInput _ => False
  end.

(** A computation all of whose events satisfy [P]. *)
Definition emits (P : event -> Prop) {A} (m : M A) : Prop :=
  forall w, exists evs : list event,
    trace (snd (m w)) = trace w ++ evs /\ Forall P evs.

(** * Properties *)

(** Lookups in a symbolic dict stay as they are written. *)
#[local] Arguments lookup : simpl never.

(** ** Strings *)

Example lower_ReCAPTCHA : lower "ReCAPTCHA required" = "recaptcha required".
Proof. reflexivity. Qed.

Example strip_quit : strip "  Quit  " = "Quit" /\ strip " a b " = "a b".
Proof. split; reflexivity. Qed.

Example contains_session :
  contains "session" (lower "Invalid SESSION token") = true
  /\ contains "session" (lower "rate limited") = false.
Proof. split; reflexivity. Qed.

Lemma lower_app (a b : string) : lower (a +:+ b) = lower a +:+ lower b.
Proof. induction a as [|c a IH]; simpl; [reflexivity | now rewrite IH]. Qed.

Lemma lower_split (s a b : string) :
  lower s = a +:+ b ->
  exists s1 s2, s = s1 +:+ s2 /\ lower s1 = a /\ lower s2 = b.
Proof.
  revert s; induction a as [|c a IH]; intros s H; simpl in H.
  - exists "", s. auto.
  - destruct s as [|d s]; simpl in H; [discriminate |].
    injection H as Hc Hs.
    destruct (IH _ Hs) as (s1 & s2 & -> & H1 & H2).
    exists (String d s1), s2. simpl. rewrite Hc, H1. auto.
Qed.

Lemma is_prefix_iff (p s : string) :
  is_prefix p s = true <-> exists t, s = p +:+ t.
Proof.
  revert s; induction p as [|a p IH]; intros s; simpl.
  - split; [intros _; exists s; reflexivity | reflexivity].
  - destruct s as [|b s].
    + split; [discriminate | intros [t Ht]; discriminate].
    + destruct (Ascii.eqb_spec a b) as [->|Hne].
      * rewrite IH. split; intros [t Ht]; exists t; [now rewrite Ht | now injection Ht].
      * split; [discriminate | intros [t Ht]; simpl in Ht; injection Ht as Hab _; congruence].
Qed.

Lemma contains_iff (needle hay : string) :
  contains needle hay = true <->
  exists pre post, hay = pre +:+ needle +:+ post.
Proof.
  induction hay as [|c hay IH]; simpl.
  - rewrite orb_false_r, is_prefix_iff. split.
    + intros [t Ht]. exists "", t. exact Ht.
    + intros (pre & post & H). destruct pre; [exists post; exact H |].
      discriminate.
  - rewrite orb_true_iff, is_prefix_iff, IH. split.
    + intros [[t Ht] | (pre & post & ->)].
      * exists "", t. exact Ht.
      * exists (String c pre), post. reflexivity.
    + intros (pre & post & H). destruct pre as [|d pre]; simpl in H.
      * left. exists post. exact H.
      * right. injection H as _ H. exists pre, post. exact H.
Qed.

(** The test the code makes, [word in text.lower()], is the spec's
    case-insensitive substring match whenever [word] is in lower case. *)
Lemma contains_lower_mentions (word text : string) :
  lower word = word ->
  (contains word (lower text) = true <-> mentions text word).
Proof.
  intros Hw. rewrite contains_iff. unfold mentions. split.
  - intros (pre & post & H).
    apply lower_split in H as (s1 & s23 & -> & _ & H).
    apply lower_split in H as (s2 & s3 & -> & H2 & _).
    exists s1, s2, s3. split; [reflexivity | congruence].
  - intros (pre & mid & post & -> & H).
    exists (lower pre), (lower post).
    rewrite !lower_app. congruence.
Qed.

Lemma not_contains_lower (word text : string) :
  lower word = word -> ~ mentions text word ->
  contains word (lower text) = false.
Proof.
  intros Hw Hn. destruct (contains word (lower text)) eqn:E; [|reflexivity].
  apply contains_lower_mentions in E; [contradiction | exact Hw].
Qed.

(** ** Field extractor *)

Example extract_acme_sub :
  extract_needed_fields (PDict {[ "businessName" := PStr "Acme Sub" ]})
  = Ok {| business_name := PStr "Acme Sub"; registration_id := PStr "";
          status := PStr ""; filing_date := PStr ""; agent_name := PStr "";
          agent_address := PStr ""; agent_email := PStr "" |}.
Proof. vm_compute. reflexivity. Qed.

(** A record whose [agent] is JSON null ends the extractor with an
    AttributeError: [None] has no [get]. *)
Example extract_null_agent :
  extract_needed_fields (PDict {[ "businessName" := PStr "Acme";
                                  "agent" := PNone ]})
  = Raise AttributeError.
Proof. vm_compute. reflexivity. Qed.

Lemma extract_not_dict (raw : pyval) :
  (forall m, raw <> PDict m) -> extract_needed_fields raw = Raise AttributeError.
Proof. destruct raw; intros H; try reflexivity. now destruct (H m). Qed.

(** C7, as the spec states it, fails on a record whose business name is the
    number 42: the extractor hands the number on and puts no empty string
    in its place. *)
Lemma extractor_keeps_non_strings :
  extract_needed_fields (PDict {[ "businessName" := PInt 42 ]})
  <> Ok (extractor_as_specified (PDict {[ "businessName" := PInt 42 ]})).
Proof.
  intros H. apply (f_equal (fun r => match r with
                                     | Ok f => business_name f
                                     | _ => PNone
                                     end)) in H.
  vm_compute in H. discriminate H.
Qed.

(** C7, amended: on a record (an object) whose [agent] entry is missing or
    is itself an object, the extractor returns the seven fields, each the
    value stored at its source key, whatever its type, and the empty string
    where the key is missing; a missing [agent] reads as the empty object. *)
Theorem extract_needed_fields_total (m agent : gmap string pyval) :
  agent_of m = Some agent ->
  extract_needed_fields (PDict m)
  = Ok {| business_name := default (PStr "") (m !! "businessName");
          registration_id := default (PStr "") (m !! "registrationId");
          status := default (PStr "") (m !! "status");
          filing_date := default (PStr "") (m !! "filingDate");
          agent_name := default (PStr "") (agent !! "name");
          agent_address := default (PStr "") (agent !! "address");
          agent_email := default (PStr "") (agent !! "email") |}.
Proof.
  unfold agent_of, extract_needed_fields. simpl.
  destruct (m !! "agent") as [a|] eqn:Ha; simpl.
  - destruct a; try discriminate. intros [= ->]. reflexivity.
  - intros [= <-]. simpl. rewrite !lookup_empty. reflexivity.
Qed.

Lemma extract_needed_fields_total_witness :
  extract_needed_fields
    (PDict {[ "businessName" := PInt 42;
              "agent" := PDict {[ "name" := PStr "J. Roe" ]} ]})
  = Ok {| business_name := PInt 42; registration_id := PStr "";
          status := PStr ""; filing_date := PStr "";
          agent_name := PStr "J. Roe"; agent_address := PStr "";
          agent_email := PStr "" |}.
Proof.
  exact (extract_needed_fields_total
           {[ "businessName" := PInt 42;
              "agent" := PDict {[ "name" := PStr "J. Roe" ]} ]}
           {[ "name" := PStr "J. Roe" ]} eq_refl).
Defined.

(** Where every value is a string, the code and the spec's extractor agree. *)
Lemma extractor_agrees_on_strings (m : gmap string pyval) :
  m !! "agent" = None ->
  (forall k v, m !! k = Some v -> exists s, v = PStr s) ->
  extract_needed_fields (PDict m) = Ok (extractor_as_specified (PDict m)).
Proof.
  intros Ha Hs. unfold extract_needed_fields, extractor_as_specified. simpl.
  rewrite Ha. simpl. rewrite !lookup_empty. simpl.
  assert (F : forall k, default (PStr "") (m !! k) = string_or_empty (m !! k)).
  { intros k. destruct (m !! k) as [v|] eqn:E; [|reflexivity].
    destruct (Hs _ _ E) as [s ->]. reflexivity. }
  now rewrite !F.
Qed.

(** ** The world only moves forward *)

Lemma extends_refl (w : world) : extends w w.
Proof.
  unfold extends. repeat split; try lia.
  - exists []. now rewrite app_nil_r.
  - exists []. now rewrite app_nil_r.
Qed.

Lemma extends_trans (w1 w2 w3 : world) :
  extends w1 w2 -> extends w2 w3 -> extends w1 w3.
Proof.
  intros (S1 & O1 & R1 & I1 & [e1 T1] & [b1 F1])
         (S2 & O2 & R2 & I2 & [e2 T2] & [b2 F2]).
  unfold extends. repeat split; try congruence; try lia.
  - exists (e1 ++ e2). now rewrite T2, T1, app_assoc.
  - exists (b1 ++ b2). now rewrite F2, F1, app_assoc.
Qed.

Lemma extends_later (w : world) gets inputs evs : extends w (later w gets inputs evs).
Proof.
  unfold extends; simpl. repeat split; try lia.
  - now exists evs.
  - exists []. now rewrite app_nil_r.
Qed.

Lemma extends_written (w : world) batch : extends w (written w batch).
Proof.
  unfold extends; simpl. repeat split; try lia.
  - exists []. now rewrite app_nil_r.
  - now exists batch.
Qed.

Lemma later_later (w : world) g1 i1 e1 g2 i2 e2 :
  later (later w g1 i1 e1) g2 i2 e2 = later w (g2 + g1) (i2 + i1) (e1 ++ e2).
Proof.
  unfold later; simpl. f_equal; try lia. now rewrite app_assoc.
Qed.

Lemma monotone_ret {A} (a : A) : monotone (ret a).
Proof. intros w. apply extends_refl. Qed.

Lemma monotone_lift {A} (r : res A) : monotone (lift r).
Proof. intros w. apply extends_refl. Qed.

Lemma monotone_bind {A B} (m : M A) (k : A -> M B) :
  monotone m -> (forall a, monotone (k a)) -> monotone (bind m k).
Proof.
  intros Hm Hk w. unfold bind. specialize (Hm w).
  destruct (m w) as [[a|e|] w1]; simpl in *; try exact Hm.
  eapply extends_trans; [exact Hm | apply Hk].
Qed.

Lemma monotone_http_get (r : request) : monotone (http_get r).
Proof. intros w. apply (extends_later w 1 0 [EvGet r]). Qed.

Lemma monotone_log_message q p s i : monotone (log_message q p s i).
Proof. intros w. apply (extends_later w 0 0 [logged q p s i]). Qed.

Lemma monotone_time_sleep (d : Q) : monotone (time_sleep d).
Proof.
  intros w. unfold time_sleep. destruct (Qle_bool 0 d); simpl.
  - apply (extends_later w 0 0 [EvSleep d]).
  - apply extends_refl.
Qed.

Lemma monotone_input : monotone input.
Proof. intros w. apply (extends_later w 0 1 [EvInput (operator w (inputs_read w))]). Qed.

Lemma monotone_append (batch : list filtered_record) :
  monotone (append_results_to_file batch).
Proof. intros w. apply extends_written. Qed.

Create HintDb monotone.
#[local] Hint Resolve monotone_ret monotone_lift monotone_http_get
  monotone_log_message monotone_time_sleep monotone_input monotone_append
  : monotone.

(** Walks through a computation built from [bind], the primitives and
    case distinctions. *)
Ltac monotone_step :=
  match goal with
  | |- monotone (bind _ _) => apply monotone_bind; [| intros ?]
  | |- monotone (if ?b then _ else _) => destruct b
  | |- monotone (match ?x with _ => _ end) => destruct x
  | |- monotone _ => solve [auto with monotone]
  end.

(** Case distinction on a scrutinee that holds no further [match]. *)
Ltac innermost_case :=
  match goal with
  | |- context [match ?x with _ => _ end] =>
      lazymatch x with
      | context [match _ with _ => _ end] => fail
      | _ => destruct x; simpl
      end
  end.

Lemma monotone_on_timeout q p mr a : monotone (on_timeout q p mr a).
Proof. unfold on_timeout. repeat monotone_step. Qed.

Lemma monotone_on_request_exception q p mr a e st :
  monotone (on_request_exception q p mr a e st).
Proof. unfold on_request_exception. repeat monotone_step. Qed.

Lemma monotone_report_success q p d : monotone (report_success q p d).
Proof. unfold report_success. repeat monotone_step. Qed.

#[local] Hint Resolve monotone_on_timeout monotone_on_request_exception
  monotone_report_success : monotone.

Lemma monotone_check_body q p d : monotone (check_body q p d).
Proof. unfold check_body. repeat monotone_step. Qed.

#[local] Hint Resolve monotone_check_body : monotone.

Lemma monotone_fetch_attempt q p s mr a : monotone (fetch_attempt q p s mr a).
Proof. unfold fetch_attempt. repeat monotone_step. Qed.

#[local] Hint Resolve monotone_fetch_attempt : monotone.

Lemma monotone_fetch_loop fuel q p s mr a : monotone (fetch_loop fuel q p s mr a).
Proof.
  revert a; induction fuel as [|fuel IH]; intros a; simpl.
  - auto with monotone.
  - repeat monotone_step.
Qed.

Lemma monotone_fetch_page q p s mr : monotone (fetch_page q p s mr).
Proof. apply monotone_fetch_loop. Qed.

#[local] Hint Resolve monotone_fetch_page : monotone.

Lemma monotone_await_credential q st : monotone (await_credential q st).
Proof. unfold await_credential. repeat monotone_step. Qed.

Lemma monotone_stop_after_retries q st : monotone (stop_after_retries q st).
Proof. unfold stop_after_retries. repeat monotone_step. Qed.

Lemma monotone_capture_total_pages st d : monotone (capture_total_pages st d).
Proof. unfold capture_total_pages. repeat monotone_step. Qed.

Lemma monotone_advance q d s p tp c : monotone (advance q d s p tp c).
Proof. unfold advance. repeat monotone_step. Qed.

#[local] Hint Resolve monotone_await_credential monotone_stop_after_retries
  monotone_capture_total_pages monotone_advance : monotone.

Lemma monotone_process_page q d st pd : monotone (process_page q d st pd).
Proof. unfold process_page. repeat monotone_step. Qed.

#[local] Hint Resolve monotone_process_page : monotone.




(** ** The fetcher keeps to the network and the log *)

Lemma quiet_ret {A} (a : A) : quiet (ret a).
Proof. intros w. split; reflexivity. Qed.

Lemma quiet_lift {A} (r : res A) : quiet (lift r).
Proof. intros w. split; reflexivity. Qed.

Lemma quiet_bind {A B} (m : M A) (k : A -> M B) :
  quiet m -> (forall a, quiet (k a)) -> quiet (bind m k).
Proof.
  intros Hm Hk w. unfold bind. specialize (Hm w).
  destruct (m w) as [[a|e|] w1]; simpl in *; try exact Hm.
  destruct (Hk a w1) as [H1 H2]. destruct Hm as [H3 H4].
  split; congruence.
Qed.

Lemma quiet_http_get (r : request) : quiet (http_get r).
Proof. intros w. split; reflexivity. Qed.

Lemma quiet_log_message q p s i : quiet (log_message q p s i).
Proof. intros w. split; reflexivity. Qed.

Lemma quiet_time_sleep (d : Q) : quiet (time_sleep d).
Proof.
  intros w. unfold time_sleep. destruct (Qle_bool 0 d); split; reflexivity.
Qed.

Create HintDb quiet.
#[local] Hint Resolve quiet_ret quiet_lift quiet_http_get quiet_log_message
  quiet_time_sleep : quiet.

Ltac quiet_step :=
  match goal with
  | |- quiet (bind _ _) => apply quiet_bind; [| intros ?]
  | |- quiet (if ?b then _ else _) => destruct b
  | |- quiet (match ?x with _ => _ end) => destruct x
  | |- quiet _ => solve [auto with quiet]
  end.

Lemma quiet_fetch_attempt q p s mr a : quiet (fetch_attempt q p s mr a).
Proof.
  unfold fetch_attempt, on_timeout, on_request_exception, check_body,
    report_success.
  repeat quiet_step.
Qed.

Lemma quiet_fetch_loop fuel q p s mr a : quiet (fetch_loop fuel q p s mr a).
Proof.
  revert a; induction fuel as [|fuel IH]; intros a; simpl.
  - auto with quiet.
  - destruct (a <=? mr); [|auto with quiet].
    apply quiet_bind; [apply quiet_fetch_attempt |].
    intros [d e|]; [auto with quiet | apply IH].
Qed.

(** [fetch_page] touches neither the output file nor the prompt: the cursor
    and the credential stay with the driver. *)
Lemma quiet_fetch_page q p s mr : quiet (fetch_page q p s mr).
Proof. apply quiet_fetch_loop. Qed.

(** ** Page fetcher *)

(** Runs the primitives of the world monad. *)
Ltac run_monad :=
  unfold bind, ret, lift, log_message, time_sleep, http_get, input,
    append_results_to_file; simpl.

(** Two descriptions of one result and one world. *)
Ltac same_world :=
  unfold later, written, emit, logged; simpl;
  rewrite <- ?app_assoc; simpl;
  first [reflexivity | repeat (f_equal; try lia)].

Lemma response_is_403_never (st : option Z) : response_is_403 st = false.
Proof.
  destruct st as [s|]; [|reflexivity]. unfold response_is_403.
  destruct (s =? 403) eqn:E; [|apply andb_false_r].
  apply Z.eqb_eq in E. now subst.
Qed.

(** One pass of the retry loop always comes back. *)
Lemma fetch_attempt_returns q p s mr a w : fst (fetch_attempt q p s mr a w) <> Diverge.
Proof.
  unfold fetch_attempt, check_body, report_success, on_request_exception,
    on_timeout, bind, lift, ret, http_get, log_message, time_sleep,
    res_bind, py_get, py_lower, py_len; simpl.
  repeat innermost_case; discriminate.
Qed.

Lemma fetch_loop_returns fuel q p s mr a w :
  (0 < fuel)%nat -> mr + 1 - a < Z.of_nat fuel ->
  fst (fetch_loop fuel q p s mr a w) <> Diverge.
Proof.
  revert a w; induction fuel as [|fuel IH]; intros a w Hpos Hf.
  - lia.
  - simpl. destruct (Z.leb_spec a mr) as [Hle|Hgt]; [|simpl; discriminate].
    unfold bind. pose proof (fetch_attempt_returns q p s mr a w) as Hr.
    destruct (fetch_attempt q p s mr a w) as [[[d e|]|e|] w1]; simpl in *;
      try discriminate; try contradiction.
    apply IH; lia.
Qed.

(** [fetch_page] is total: the retry loop ends for every retry budget,
    whatever the network does. *)
Lemma fetch_page_returns q p s mr w : fst (fetch_page q p s mr w) <> Diverge.
Proof. apply fetch_loop_returns; lia. Qed.

(** A fetch whose [S n] remaining attempts all time out. *)
Lemma fetch_loop_timeouts (n : nat) :
  forall fuel q p s mr a w,
    (n < fuel)%nat -> mr = a + Z.of_nat n ->
    (forall k, (k <= n)%nat ->
       server w (k + requests_made w)%nat
         {| req_q := q; req_page := p; req_session := s |} = TimeoutExc) ->
    fetch_loop fuel q p s mr a w
    = (Ok (PNone, Some Etimeout),
       later w (S n) 0 (timeout_events q p s mr n a)).
Proof.
  induction n as [|n IH]; intros fuel q p s mr a w Hf Hmr Hsrv;
    (destruct fuel as [|fuel]; [lia|]); simpl fetch_loop;
    (destruct (Z.leb_spec a mr); [|lia]);
    pose proof (Hsrv 0%nat ltac:(lia)) as H0; simpl in H0;
    unfold bind at 1; unfold fetch_attempt, bind at 1, http_get; simpl;
    rewrite H0; unfold on_timeout.
  - destruct (Z.geb_spec a mr); [|lia]. run_monad. same_world.
  - destruct (Z.geb_spec a mr); [lia|]. run_monad.
    rewrite (IH fuel q p s mr (a + 1)); [| lia | lia |].
    + same_world.
    + intros k Hk. simpl. rewrite <- (Hsrv (S k)) by lia.
      f_equal. lia.
Qed.

(** C3: whatever the query, the page and the credential, a fetch whose
    attempts all time out makes exactly three requests, sleeps the fixed
    two seconds between consecutive attempts, writes one log line per attempt
    (RETRY, RETRY, ERROR) and returns no page with the error type
    ['timeout']. *)
Theorem fetch_page_timeout_exhaustion (query : string) (page : Z)
    (sid : string) (w : world) :
  (forall k, (k < 3)%nat ->
     server w (k + requests_made w)%nat
       {| req_q := query; req_page := page; req_session := sid |}
     = TimeoutExc) ->
  fetch_page query page sid default_max_retries w
  = (Ok (PNone, Some Etimeout),
     later w 3 0
       [EvGet {| req_q := query; req_page := page; req_session := sid |};
        logged query (AtPage page) RETRY (TimeoutAttempt 1 3);
        EvSleep (inject_Z 2);
        EvGet {| req_q := query; req_page := page; req_session := sid |};
        logged query (AtPage page) RETRY (TimeoutAttempt 2 3);
        EvSleep (inject_Z 2);
        EvGet {| req_q := query; req_page := page; req_session := sid |};
        logged query (AtPage page) ERROR (TimeoutAfter 3)]).
Proof.
  intros H. unfold fetch_page, default_max_retries.
  rewrite (fetch_loop_timeouts 2); [reflexivity | simpl; lia | reflexivity |].
  intros k Hk. apply H. lia.
Qed.

Lemma fetch_page_timeout_exhaustion_witness :
  fst (fetch_page "acme" 1 "tok" default_max_retries all_timeouts)
  = Ok (PNone, Some Etimeout).
Proof.
  rewrite (fetch_page_timeout_exhaustion "acme" 1 "tok" all_timeouts).
  - reflexivity.
  - intros k _. reflexivity.
Defined.

(** The same for every retry budget: [max_retries + 1] requests. *)
Lemma fetch_page_timeouts_count (query : string) (page : Z) (sid : string)
    (max_retries : Z) (w : world) :
  0 <= max_retries ->
  (forall k, server w k {| req_q := query; req_page := page; req_session := sid |}
             = TimeoutExc) ->
  fst (fetch_page query page sid max_retries w) = Ok (PNone, Some Etimeout)
  /\ Z.of_nat (requests_made (snd (fetch_page query page sid max_retries w)))
     = Z.of_nat (requests_made w) + max_retries + 1.
Proof.
  intros Hmr H. unfold fetch_page.
  rewrite (fetch_loop_timeouts (Z.to_nat max_retries)).
  - split; [reflexivity | unfold later; simpl; lia].
  - lia.
  - lia.
  - intros k _. apply H.
Qed.

(** C4: whatever the query, the page and the credential, an answer with
    status 403, or a 2xx answer whose body has an error text that mentions
    "recaptcha" or "session" in any letter case, ends the fetch on that very
    attempt: one request, one ERROR line, no sleep, no further attempt, and
    the result is no page with the error type ['403']. *)
Theorem session_invalid_no_retry (fuel : nat) (query : string) (page : Z)
    (sid : string) (max_retries attempt : Z) (w : world)
    (status_code : Z) (http_error : string) (content : body) :
  attempt <= max_retries ->
  server w (requests_made w)
    {| req_q := query; req_page := page; req_session := sid |}
  = Response status_code http_error content ->
  session_invalid_response status_code content ->
  fetch_loop (S fuel) query page sid max_retries attempt w
  = (Ok (PNone, Some E403),
     later w 1 0
       [EvGet {| req_q := query; req_page := page; req_session := sid |};
        logged query (AtPage page) ERROR
          (session_error_info status_code content)]).
Proof.
  intros Hle Hsrv Hinv. simpl fetch_loop.
  destruct (Z.leb_spec attempt max_retries); [|lia].
  unfold bind at 1; unfold fetch_attempt, bind at 1, http_get; simpl.
  rewrite Hsrv.
  destruct Hinv as [-> | (Hrange & m & text & -> & Herr & Hment)].
  - simpl. run_monad. same_world.
  - unfold session_error_info, key_of.
    assert (E1 : (status_code =? 403) = false) by (apply Z.eqb_neq; lia).
    assert (E2 : (400 <=? status_code) && (status_code <? 600) = false)
      by (apply andb_false_iff; left; apply Z.leb_gt; lia).
    rewrite E1, E2. unfold check_body, py_get.
    destruct (decide (is_Some (m !! "error"))) as [_|Hno];
      [| destruct Hno; eauto].
    rewrite Herr.
    assert (Hc : contains "recaptcha" (lower text)
                 || contains "session" (lower text) = true).
    { apply orb_true_iff.
      destruct Hment as [Hm|Hm]; [left|right];
        now apply contains_lower_mentions. }
    run_monad. rewrite Hc. same_world.
Qed.

Lemma session_invalid_no_retry_witness :
  fetch_page "acme" 1 "tok" default_max_retries captcha_world
  = (Ok (PNone, Some E403),
     later captcha_world 1 0
       [EvGet {| req_q := "acme"; req_page := 1; req_session := "tok" |};
        logged "acme" (AtPage 1) ERROR
          (SessionErrorBody (PStr "ReCAPTCHA verification required"))]).
Proof.
  apply (session_invalid_no_retry 3 "acme" 1 "tok" 2 0 captcha_world 200 ""
           (JsonBody (PDict captcha_body))).
  - lia.
  - reflexivity.
  - right. split; [lia|].
    exists captcha_body, "ReCAPTCHA verification required".
    split; [reflexivity|]. split; [reflexivity|].
    left. exists "", "ReCAPTCHA", " verification required".
    split; reflexivity.
Defined.

(** A 2xx answer whose error text mentions neither word is a success. *)
Lemma fetch_loop_benign_error (fuel : nat) (query : string) (page : Z)
    (sid : string) (max_retries attempt : Z) (w : world) (status_code : Z)
    (http_error : string) (m : gmap string pyval) (text : string)
    (results : list pyval) :
  attempt <= max_retries ->
  200 <= status_code < 300 ->
  server w (requests_made w)
    {| req_q := query; req_page := page; req_session := sid |}
  = Response status_code http_error (JsonBody (PDict m)) ->
  m !! "error" = Some (PStr text) ->
  ~ mentions text "recaptcha" -> ~ mentions text "session" ->
  default (PList []) (m !! "results") = PList results ->
  fetch_loop (S fuel) query page sid max_retries attempt w
  = (Ok (PDict m, None),
     later w 1 0
       [EvGet {| req_q := query; req_page := page; req_session := sid |};
        logged query (AtPage page) SUCCESS (Retrieved (length results))]).
Proof.
  intros Hle Hrange Hsrv Herr Hn1 Hn2 Hres. simpl fetch_loop.
  destruct (Z.leb_spec attempt max_retries); [|lia].
  unfold bind at 1; unfold fetch_attempt, bind at 1, http_get; simpl.
  rewrite Hsrv.
  assert (E1 : (status_code =? 403) = false) by (apply Z.eqb_neq; lia).
  assert (E2 : (400 <=? status_code) && (status_code <? 600) = false)
    by (apply andb_false_iff; left; apply Z.leb_gt; lia).
  rewrite E1, E2. unfold check_body, report_success, py_get.
  destruct (decide (is_Some (m !! "error"))) as [_|Hno];
    [| destruct Hno; eauto].
  rewrite Herr, Hres.
  pose proof (not_contains_lower "recaptcha" text eq_refl Hn1) as C1.
  pose proof (not_contains_lower "session" text eq_refl Hn2) as C2.
  run_monad. rewrite C1, C2. same_world.
Qed.

(** ** Pagination driver *)

Lemma advance_output_file q d s p tp c w :
  output_file (snd (advance q d s p tp c w)) = output_file w.
Proof.
  unfold advance, py_ge, py_le, py_int, res_bind. run_monad.
  repeat innermost_case; reflexivity.
Qed.

Lemma advance_inputs_read q d s p tp c w :
  inputs_read (snd (advance q d s p tp c w)) = inputs_read w.
Proof.
  unfold advance, py_ge, py_le, py_int, res_bind. run_monad.
  repeat innermost_case; reflexivity.
Qed.

(** The records of a fetched page reach the output file before the driver
    looks at the page count. *)
Lemma process_page_output_file q d st (m : gmap string pyval) results filtered w :
  default (PList []) (m !! "results") = PList results ->
  map_res extract_needed_fields results = Ok filtered ->
  output_file (snd (process_page q d st (PDict m) w)) = output_file w ++ filtered.
Proof.
  intros Hres Hmap. unfold process_page, capture_total_pages.
  set (adv := advance q d (session_id st) (current_page st)).
  destruct (total_pages st); run_monad; rewrite Hres; simpl; rewrite Hmap;
    simpl; subst adv; rewrite ?advance_output_file; reflexivity.
Qed.

(** C10: whatever the query, the page and the credential, a 2xx answer whose
    body has an error text that mentions neither "recaptcha" nor "session"
    is a success of the fetcher: the body comes back with no error type and
    one SUCCESS line is logged; the driver goes on to process that body and
    writes the filtered records of its results (none when the body has no
    results) to the output file. *)
Theorem benign_error_field_is_success (query : string) (delay : Q)
    (st : driver_state) (w : world) (status_code : Z) (http_error : string)
    (m : gmap string pyval) (text : string) (results : list pyval) :
  200 <= status_code < 300 ->
  server w (requests_made w)
    {| req_q := query; req_page := current_page st;
       req_session := session_id st |}
  = Response status_code http_error (JsonBody (PDict m)) ->
  m !! "error" = Some (PStr text) ->
  ~ mentions text "recaptcha" -> ~ mentions text "session" ->
  default (PList []) (m !! "results") = PList results ->
  fetch_page query (current_page st) (session_id st) default_max_retries w
  = (Ok (PDict m, None),
     later w 1 0
       [EvGet {| req_q := query; req_page := current_page st;
                 req_session := session_id st |};
        logged query (AtPage (current_page st)) SUCCESS
          (Retrieved (length results))])
  /\ loop_body query delay st w
     = process_page query delay st (PDict m)
         (later w 1 0
            [EvGet {| req_q := query; req_page := current_page st;
                      req_session := session_id st |};
             logged query (AtPage (current_page st)) SUCCESS
               (Retrieved (length results))])
  /\ forall filtered : list filtered_record,
       map_res extract_needed_fields results = Ok filtered ->
       output_file (snd (loop_body query delay st w))
       = output_file w ++ filtered.
Proof.
  intros Hrange Hsrv Herr Hn1 Hn2 Hres.
  assert (F : fetch_page query (current_page st) (session_id st)
                default_max_retries w
              = (Ok (PDict m, None),
                 later w 1 0
                   [EvGet {| req_q := query; req_page := current_page st;
                             req_session := session_id st |};
                    logged query (AtPage (current_page st)) SUCCESS
                      (Retrieved (length results))])).
  { unfold fetch_page.
    apply (fetch_loop_benign_error _ _ _ _ _ _ _ status_code http_error m text);
      auto. unfold default_max_retries. lia. }
  assert (L : loop_body query delay st w
              = process_page query delay st (PDict m)
                  (later w 1 0
                     [EvGet {| req_q := query; req_page := current_page st;
                               req_session := session_id st |};
                      logged query (AtPage (current_page st)) SUCCESS
                        (Retrieved (length results))])).
  { unfold loop_body, bind at 1. now rewrite F. }
  split; [exact F|]. split; [exact L|]. intros filtered Hmap.
  rewrite L. now rewrite (process_page_output_file _ _ _ _ results filtered).
Qed.

Lemma benign_error_field_is_success_witness :
  fst (loop_body "acme" (inject_Z 1)
         {| session_id := "tok"; current_page := 1; total_pages := PNone;
            total_results_collected := 0 |} warning_world)
  = Ok (Break DONE {| session_id := "tok"; current_page := 1;
                      total_pages := PInt 1; total_results_collected := 1 |})
  /\ output_file
       (snd (loop_body "acme" (inject_Z 1)
               {| session_id := "tok"; current_page := 1; total_pages := PNone;
                  total_results_collected := 0 |} warning_world))
     = [acme_sub].
Proof.
  split; [vm_compute; reflexivity |].
  apply (benign_error_field_is_success "acme" (inject_Z 1)
           {| session_id := "tok"; current_page := 1; total_pages := PNone;
              total_results_collected := 0 |} warning_world 200 ""
           warning_body "partial index"
           [PDict {[ "businessName" := PStr "Acme Sub" ]}]).
  - lia.
  - reflexivity.
  - reflexivity.
  - intros H. apply (contains_lower_mentions "recaptcha") in H;
      [discriminate H | reflexivity].
  - intros H. apply (contains_lower_mentions "session") in H;
      [discriminate H | reflexivity].
  - reflexivity.
  - vm_compute. reflexivity.
Defined.

Lemma advance_state q d s p tp c w r w1 :
  advance q d s p tp c w = (Ok r, w1) ->
  session_id (state_of r) = s /\ total_pages (state_of r) = tp
  /\ total_results_collected (state_of r) = c
  /\ (current_page (state_of r) = p \/ current_page (state_of r) = p + 1).
Proof.
  unfold advance, py_ge, py_le, py_int, res_bind. run_monad.
  repeat innermost_case; intros [= <- <-]; simpl; auto.
Qed.

(** What a pass that processes a page leaves in the state. *)
Lemma process_page_state q d st pd w r w1 :
  process_page q d st pd w = (Ok r, w1) ->
  session_id (state_of r) = session_id st
  /\ (total_pages st <> PNone -> total_pages (state_of r) = total_pages st)
  /\ (forall m, total_pages st = PNone -> pd = PDict m ->
        total_pages (state_of r) = default (PInt 1) (m !! "totalPages")).
Proof.
  unfold process_page, capture_total_pages.
  set (adv := advance q d (session_id st) (current_page st)).
  destruct (total_pages st) eqn:Etp; destruct pd; run_monad;
    try discriminate; repeat innermost_case; try discriminate; subst adv;
    intros H; apply advance_state in H as (Hs & Ht & _);
    (split; [exact Hs|]);
    (split; [intros Hne; try exact Ht; now destruct Hne|]);
    intros m0 Hn Hpd; try discriminate Hn;
    inversion Hpd; subst; exact Ht.
Qed.

Lemma await_credential_state q st w r w1 :
  await_credential q st w = (Ok r, w1) ->
  total_pages (state_of r) = total_pages st
  /\ current_page (state_of r) = current_page st
  /\ total_results_collected (state_of r) = total_results_collected st.
Proof.
  unfold await_credential. run_monad.
  destruct (String.eqb _ _); intros [= <- <-]; simpl; auto.
Qed.

(** Once known, the page count survives every pass, whatever the pass and
    whatever later pages report. *)
Lemma loop_body_total_pages q d st w r w1 :
  total_pages st <> PNone ->
  loop_body q d st w = (Ok r, w1) ->
  total_pages (state_of r) = total_pages st.
Proof.
  intros Hk. unfold loop_body, bind at 1.
  destruct (fetch_page q (current_page st) (session_id st)
              default_max_retries w) as [[[pd err]|e|] w0];
    try discriminate.
  destruct pd;
    try (intros H; apply process_page_state in H as (_ & H & _); auto).
  destruct err as [[]|]; unfold stop_after_retries; run_monad;
    try (intros [= <- <-]; reflexivity);
    intros H; apply await_credential_state in H as (H & _); exact H.
Qed.

Lemma continues_total_pages q d st w st' w' :
  continues q d st w st' w' ->
  total_pages st <> PNone -> total_pages st' = total_pages st.
Proof.
  induction 1 as [|st w st1 w1 st2 w2 Hstep _ IH]; intros Hk; [reflexivity|].
  apply loop_body_total_pages in Hstep; [|exact Hk]. simpl in Hstep.
  rewrite IH; congruence.
Qed.

(** After [m], the trace of [bind m k] goes on from the trace of [m]. *)
Lemma bind_trace_from {A B} (m : M A) (k : A -> M B) (w : world) :
  (forall a, monotone (k a)) ->
  exists evs : list event,
    trace (snd (bind m k w)) = trace (snd (m w)) ++ evs.
Proof.
  intros Hk. unfold bind. destruct (m w) as [[a|e|] w1]; simpl.
  - destruct (Hk a w1) as (_ & _ & _ & _ & He & _). exact He.
  - exists []. now rewrite app_nil_r.
  - exists []. now rewrite app_nil_r.
Qed.

(** A fetch with a retry budget that is not negative opens with the
    request for its page, under its credential. *)
Lemma fetch_page_first_request q p s mr w :
  0 <= mr ->
  exists rest : list event,
    trace (snd (fetch_page q p s mr w))
    = trace w ++ EvGet {| req_q := q; req_page := p; req_session := s |} :: rest.
Proof.
  intros Hmr. unfold fetch_page. simpl fetch_loop.
  destruct (Z.leb_spec 0 mr); [|lia].
  match goal with
  | |- context [bind ?m ?k w] =>
      destruct (bind_trace_from m k w) as [e1 H1]
  end.
  { intros [d e|]; auto with monotone. apply monotone_fetch_loop. }
  rewrite H1. unfold fetch_attempt.
  match goal with
  | |- context [bind ?m ?k w] =>
      destruct (bind_trace_from m k w) as [e2 H2]
  end.
  { intros o. repeat monotone_step. }
  rewrite H2. simpl. exists (e2 ++ e1). now rewrite <- !app_assoc.
Qed.

(** Every pass of the driver opens with the request for the page under the
    cursor, carrying the credential the state holds. *)
Lemma loop_body_first_request q d st w :
  exists rest : list event,
    trace (snd (loop_body q d st w))
    = trace w ++ EvGet {| req_q := q; req_page := current_page st;
                          req_session := session_id st |} :: rest.
Proof.
  unfold loop_body.
  match goal with
  | |- context [bind ?m ?k w] =>
      destruct (bind_trace_from m k w) as [e1 H1]
  end.
  { intros [pd err]. repeat monotone_step. }
  rewrite H1.
  destruct (fetch_page_first_request q (current_page st) (session_id st)
              default_max_retries w) as [e2 H2];
    [unfold default_max_retries; lia|].
  rewrite H2. exists (e2 ++ e1). now rewrite <- app_assoc.
Qed.

(** C1: when the fetch of page p ends with ['timeout'] or ['403'] and the
    operator types a line that is not the stop word, the pass ends with
    [continue] in a state that differs from the old one in the credential
    only: the cursor, the page count and the running total are the old ones,
    the output file is the one the pass started with, and the next pass
    opens with the request for the same page p under the new credential. *)
Theorem credential_renewal_keeps_cursor (query : string) (delay : Q)
    (st : driver_state) (w w1 : world) (err : error_type) :
  fetch_page query (current_page st) (session_id st) default_max_retries w
  = (Ok (PNone, Some err), w1) ->
  err = Etimeout \/ err = E403 ->
  lower (strip (operator w1 (inputs_read w1))) <> "quit" ->
  loop_body query delay st w
  = (Ok (Continue (with_session st (strip (operator w1 (inputs_read w1))))),
     later w1 0 1
       [EvInput (operator w1 (inputs_read w1));
        logged query (AtPage (current_page st)) NEW_SESSION
          (Resuming (current_page st))])
  /\ output_file (snd (loop_body query delay st w)) = output_file w
  /\ exists rest : list event,
       trace (snd (loop_body query delay
                     (with_session st (strip (operator w1 (inputs_read w1))))
                     (snd (loop_body query delay st w))))
       = trace (snd (loop_body query delay st w))
         ++ EvGet {| req_q := query; req_page := current_page st;
                     req_session := strip (operator w1 (inputs_read w1)) |}
         :: rest.
Proof.
  intros Hfetch Herr Hline.
  assert (L : loop_body query delay st w
              = (Ok (Continue
                       (with_session st
                          (strip (operator w1 (inputs_read w1))))),
                 later w1 0 1
                   [EvInput (operator w1 (inputs_read w1));
                    logged query (AtPage (current_page st)) NEW_SESSION
                      (Resuming (current_page st))])).
  { unfold loop_body, bind at 1. rewrite Hfetch.
    assert (E : String.eqb (lower (strip (operator w1 (inputs_read w1))))
                  "quit" = false) by now apply String.eqb_neq.
    destruct Herr as [-> | ->]; unfold await_credential; run_monad;
      rewrite E; same_world. }
  rewrite L. simpl. split; [reflexivity|]. split.
  - destruct (quiet_fetch_page query (current_page st) (session_id st)
                default_max_retries w) as [Hq _].
    rewrite Hfetch in Hq. exact Hq.
  - apply (loop_body_first_request query delay
             (with_session st (strip (operator w1 (inputs_read w1))))).
Qed.

Lemma credential_renewal_keeps_cursor_witness :
  fst (loop_body "acme" (inject_Z 1)
         {| session_id := "tok"; current_page := 7; total_pages := PInt 9;
            total_results_collected := 60 |}
         (forbidden_world (fun _ => " tok2 ")))
  = Ok (Continue {| session_id := "tok2"; current_page := 7;
                    total_pages := PInt 9; total_results_collected := 60 |}).
Proof.
  pose proof (credential_renewal_keeps_cursor "acme" (inject_Z 1)
                {| session_id := "tok"; current_page := 7;
                   total_pages := PInt 9; total_results_collected := 60 |}
                (forbidden_world (fun _ => " tok2 "))
                (later (forbidden_world (fun _ => " tok2 ")) 1 0
                   [EvGet {| req_q := "acme"; req_page := 7;
                             req_session := "tok" |};
                    logged "acme" (AtPage 7) ERROR Forbidden403])
                E403 eq_refl (or_intror eq_refl)) as H.
  destruct H as [H _]; [discriminate |].
  rewrite H. reflexivity.
Defined.

(** C2: the page count is taken from the first page that is fetched with
    success and from no other: if that page reports totalPages = N and the
    run goes on, then after any number of further passes the count in the
    state is still N; N is what the driver takes as the bound when a later
    page arrives, whatever totalPages that page reports, and N is the count
    in the state the next pass ends in, whichever way it ends. *)
Theorem total_pages_lock_in (query : string) (delay : Q)
    (st st1 st2 : driver_state) (w w0 w1 w2 : world)
    (m : gmap string pyval) (N : Z) :
  total_pages st = PNone ->
  fetch_page query (current_page st) (session_id st) default_max_retries w
  = (Ok (PDict m, None), w0) ->
  m !! "totalPages" = Some (PInt N) ->
  loop_body query delay st w = (Ok (Continue st1), w1) ->
  continues query delay st1 w1 st2 w2 ->
  total_pages st1 = PInt N
  /\ total_pages st2 = PInt N
  /\ (forall (later_page : pyval) (w' : world),
        capture_total_pages st2 later_page w' = (Ok (PInt N), w'))
  /\ (forall (r : loop_end) (w3 : world),
        loop_body query delay st2 w2 = (Ok r, w3) ->
        total_pages (state_of r) = PInt N).
Proof.
  intros Hnone Hfetch Htp Hstep Hrun.
  assert (H1 : total_pages st1 = PInt N).
  { unfold loop_body, bind at 1 in Hstep. rewrite Hfetch in Hstep.
    apply process_page_state in Hstep as (_ & _ & H).
    specialize (H m Hnone eq_refl). simpl in H. rewrite H, Htp.
    reflexivity. }
  assert (H2 : total_pages st2 = PInt N).
  { rewrite (continues_total_pages _ _ _ _ _ _ Hrun); [exact H1|].
    rewrite H1. discriminate. }
  split; [exact H1|]. split; [exact H2|]. split.
  - intros later_page w'. unfold capture_total_pages. now rewrite H2.
  - intros r w3 Hlast. apply loop_body_total_pages in Hlast.
    + congruence.
    + rewrite H2. discriminate.
Qed.

Lemma total_pages_lock_in_witness :
  capture_total_pages acme_after_first
    (PDict {[ "totalPages" := PInt 7 ]}) acme_world
  = (Ok (PInt 2), acme_world).
Proof.
  exact (proj1 (proj2 (proj2
           (total_pages_lock_in "acme" (inject_Z 1)
              (start_state "tok" 1) acme_after_first acme_after_first
              acme_world
              (snd (fetch_page "acme" 1 "tok" default_max_retries acme_world))
              (snd (loop_body "acme" (inject_Z 1) (start_state "tok" 1)
                      acme_world))
              (snd (loop_body "acme" (inject_Z 1) (start_state "tok" 1)
                      acme_world))
              (<["results" := PList [acme_llc_raw]]>
                 (<["total" := PInt 2]> {[ "totalPages" := PInt 2 ]}))
              2 eq_refl eq_refl eq_refl eq_refl
              (continues_here _ _ _ _))))
           (PDict {[ "totalPages" := PInt 7 ]}) acme_world).
Defined.

(** C5: a fetch that ends with ['timeout'] or ['403'] sends the driver to
    the operator: over the whole pass it reads one line at the prompt, and
    it logs one line about what the operator chose.  A fetch that ends with
    ['other'] makes the driver log STOPPED "Failed after retries" and leave
    the loop; over the whole pass nothing is read from the operator. *)
Theorem failure_kind_routes_driver (query : string) (delay : Q)
    (st : driver_state) (w w1 : world) (err : error_type) :
  fetch_page query (current_page st) (session_id st) default_max_retries w
  = (Ok (PNone, Some err), w1) ->
  match err with
  | Etimeout | E403 =>
      loop_body query delay st w = await_credential query st w1
      /\ inputs_read (snd (loop_body query delay st w)) = S (inputs_read w)
      /\ exists entry : log_entry,
           trace (snd (loop_body query delay st w))
           = trace w1 ++ [EvInput (operator w1 (inputs_read w1)); EvLog entry]
           /\ (log_status entry = NEW_SESSION \/ log_status entry = STOPPED)
  | Eother =>
      loop_body query delay st w
      = (Ok (Break STOPPED_RUN st),
         later w1 0 0
           [logged query (AtPage (current_page st)) STOPPED FailedAfterRetries])
      /\ inputs_read (snd (loop_body query delay st w)) = inputs_read w
  end.
Proof.
  intros Hfetch.
  assert (Hin : inputs_read w1 = inputs_read w).
  { destruct (quiet_fetch_page query (current_page st) (session_id st)
                default_max_retries w) as [_ Hq].
    rewrite Hfetch in Hq. exact Hq. }
  assert (A : inputs_read (snd (await_credential query st w1))
              = S (inputs_read w)
              /\ exists entry : log_entry,
                   trace (snd (await_credential query st w1))
                   = trace w1 ++ [EvInput (operator w1 (inputs_read w1));
                                  EvLog entry]
                   /\ (log_status entry = NEW_SESSION
                       \/ log_status entry = STOPPED)).
  { rewrite <- Hin. unfold await_credential. run_monad.
    destruct (String.eqb _ _); simpl; (split; [reflexivity|]);
      eexists; rewrite <- app_assoc; simpl; split; eauto. }
  assert (L : loop_body query delay st w
              = match err with
                | Etimeout | E403 => await_credential query st w1
                | Eother => stop_after_retries query st w1
                end).
  { unfold loop_body, bind at 1. rewrite Hfetch. now destruct err. }
  rewrite L. destruct err; try (split; [reflexivity | apply A]).
  unfold stop_after_retries. run_monad. split; [same_world | exact Hin].
Qed.

Lemma failure_kind_routes_driver_witness :
  inputs_read
    (snd (loop_body "acme" (inject_Z 1) (start_state "tok" 1) all_timeouts))
  = 1%nat.
Proof.
  exact (proj1 (proj2 (failure_kind_routes_driver "acme" (inject_Z 1)
                         (start_state "tok" 1) all_timeouts
                         (snd (fetch_page "acme" 1 "tok" default_max_retries
                                 all_timeouts))
                         Etimeout eq_refl))).
Defined.

(** C6, as the spec states it, fails for a run that starts at page 5 of a
    search with 2 pages: the driver ends with DONE although the cursor does
    not equal the page count. *)
Lemma advancing_done_past_last_page : ~ advancing_as_specified 5 2.
Proof.
  intros H.
  destruct (H "acme" (inject_Z 1) "tok" 0 all_timeouts) as [H1 _].
  assert (E : 5 = 2) by (apply H1; eexists; eexists; reflexivity).
  discriminate E.
Qed.

(** C6, amended: after a page went through, with an integer page count and
    a delay that is not negative, the driver ends with DONE, logging
    COMPLETED with the final total, exactly when the cursor is greater than
    or equal to the page count; otherwise it adds 1 to the cursor, sleeps
    the inter-page delay and goes back to fetching. *)
Theorem advancing_step (query : string) (delay : Q) (sid : string)
    (page total collected : Z) (w : world) :
  (0 <= delay)%Q ->
  (total <= page ->
   advance query delay sid page (PInt total) collected w
   = (Ok (Break DONE {| session_id := sid; current_page := page;
                        total_pages := PInt total;
                        total_results_collected := collected |}),
      later w 0 0
        [logged query (PageSpan (PInt total)) COMPLETED
           (AllFetched collected)]))
  /\ (page < total ->
      advance query delay sid page (PInt total) collected w
      = (Ok (Continue {| session_id := sid; current_page := page + 1;
                         total_pages := PInt total;
                         total_results_collected := collected |}),
         later w 0 0 [EvSleep delay])).
Proof.
  intros Hd. apply Qle_bool_iff in Hd.
  unfold advance, py_ge, py_le, py_int, res_bind. run_monad. split; intros H.
  - destruct (Z.leb_spec total page); [|lia]. same_world.
  - destruct (Z.leb_spec total page); [lia|].
    destruct (Z.leb_spec (page + 1) total); [|lia].
    unfold time_sleep. rewrite Hd. same_world.
Qed.

Lemma advancing_step_witness :
  advance "acme" (inject_Z 1) "tok" 5 (PInt 2) 7 all_timeouts
  = (Ok (Break DONE {| session_id := "tok"; current_page := 5;
                       total_pages := PInt 2;
                       total_results_collected := 7 |}),
     later all_timeouts 0 0
       [logged "acme" (PageSpan (PInt 2)) COMPLETED (AllFetched 7)]).
Proof.
  apply (advancing_step "acme" (inject_Z 1) "tok" 5 2 7 all_timeouts).
  - discriminate.
  - lia.
Defined.

(** A negative delay ends the pass with the ValueError of [time.sleep]. *)
Example advance_negative_delay :
  fst (advance "acme" (inject_Z (-1)) "tok" 1 (PInt 2) 0 all_timeouts)
  = Raise ValueError.
Proof. reflexivity. Qed.

(** C8: the start-up check of [main] turns an empty session id down, but the
    renewal prompt takes it: after a 403 on page 1 the operator presses
    Enter, and the driver installs the empty string as the credential, logs
    NEW_SESSION and goes on to request page 1 with it. *)
Theorem renewal_accepts_empty_credential :
  main_session_check "" = None
  /\ loop_body "acme" (inject_Z 1) (start_state "tok" 1)
       (forbidden_world (fun _ => ""))
     = (Ok (Continue {| session_id := ""; current_page := 1;
                        total_pages := PNone;
                        total_results_collected := 0 |}),
        later (forbidden_world (fun _ => "")) 1 1
          [EvGet {| req_q := "acme"; req_page := 1; req_session := "tok" |};
           logged "acme" (AtPage 1) ERROR Forbidden403;
           EvInput "";
           logged "acme" (AtPage 1) NEW_SESSION (Resuming 1)])
  /\ nth_error
       (trace (snd (run_loop 2 "acme" (inject_Z 1) (start_state "tok" 1)
                      (forbidden_world (fun _ => ""))))) 4
     = Some (EvGet {| req_q := "acme"; req_page := 1; req_session := "" |}).
Proof. repeat split; vm_compute; reflexivity. Qed.

(** C9: when the first page fetched with success has no totalPages, the
    page count becomes 1; with a cursor of at least 1 the run then writes
    the records of that page, logs COMPLETED and ends with DONE, making no
    further request. *)
Theorem missing_total_pages_is_one_page (fuel : nat) (query : string)
    (delay : Q) (st : driver_state) (w w1 : world) (m : gmap string pyval)
    (results : list pyval) (filtered : list filtered_record) :
  total_pages st = PNone ->
  1 <= current_page st ->
  fetch_page query (current_page st) (session_id st) default_max_retries w
  = (Ok (PDict m, None), w1) ->
  m !! "totalPages" = None ->
  default (PList []) (m !! "results") = PList results ->
  map_res extract_needed_fields results = Ok filtered ->
  run_loop (S fuel) query delay st w
  = (Ok (DONE,
         {| session_id := session_id st; current_page := current_page st;
            total_pages := PInt 1;
            total_results_collected :=
              total_results_collected st + Z.of_nat (length filtered) |}),
     later (written w1 filtered) 0 0
       [logged query (PageSpan (PInt 1)) COMPLETED
          (AllFetched (total_results_collected st
                       + Z.of_nat (length filtered)))]).
Proof.
  intros Hnone Hpage Hfetch Htp Hres Hmap. simpl run_loop.
  unfold bind at 1; unfold loop_body, bind at 1. rewrite Hfetch.
  unfold process_page, capture_total_pages, advance, py_ge, py_int.
  rewrite Hnone. run_monad. rewrite Htp. simpl. rewrite Hres. simpl.
  rewrite Hmap. simpl.
  destruct (Z.leb_spec 1 (current_page st)); [|lia]. same_world.
Qed.

Lemma missing_total_pages_is_one_page_witness :
  fst (run_loop 1 "acme" (inject_Z 1) (start_state "tok" 3) lone_world)
  = Ok (DONE, {| session_id := "tok"; current_page := 3;
                 total_pages := PInt 1; total_results_collected := 1 |}).
Proof.
  erewrite (missing_total_pages_is_one_page 0 "acme" (inject_Z 1)
              (start_state "tok" 3) lone_world _ lone_page
              [PDict {[ "businessName" := PStr "Acme Sub" ]}] [acme_sub]).
  - reflexivity.
  - reflexivity.
  - simpl. lia.
  - vm_compute. reflexivity.
  - reflexivity.
  - reflexivity.
  - vm_compute. reflexivity.
Defined.

(** ** The scenarios of the spec *)

(** Two pages for the query "acme": two records in the output file, the
    second with empty strings, COMPLETED in the log, and a total of 2. *)
Example acme_end_to_end :
  fst (fetch_all_pages 5 "acme" "tok" 1 (inject_Z 1) acme_world) = Ok 2
  /\ output_file (snd (fetch_all_pages 5 "acme" "tok" 1 (inject_Z 1)
                         acme_world))
     = [acme_llc; acme_sub]
  /\ last (trace (snd (fetch_all_pages 5 "acme" "tok" 1 (inject_Z 1)
                         acme_world)))
     = Some (logged "acme" (PageSpan (PInt 2)) COMPLETED (AllFetched 2)).
Proof. repeat split; vm_compute; reflexivity. Qed.

(** Page 1 answers 403 and the operator types "quit": a total of 0, and a
    log of SESSION_START, the 403 ERROR and STOPPED. *)
Example quit_on_403 :
  fst (fetch_all_pages 5 "acme" "tok" 1 (inject_Z 1)
         (forbidden_world (fun _ => "quit"))) = Ok 0
  /\ filter (fun e => is_log e)
       (trace (snd (fetch_all_pages 5 "acme" "tok" 1 (inject_Z 1)
                      (forbidden_world (fun _ => "quit")))))
     = [logged "acme" AtStart SESSION_START (StartingScrape "acme");
        logged "acme" (AtPage 1) ERROR Forbidden403;
        logged "acme" (AtPage 1) STOPPED UserQuit].
Proof. repeat split; vm_compute; reflexivity. Qed.

(** * Further properties *)

(** ** Page fetcher: retries *)

Lemma on_request_exception_failed q p mr a e st w :
  session_words e = false ->
  on_request_exception q p mr a e st w
  = if a >=? mr
    then (Ok (Return PNone (Some Eother)),
          later w 0 0 [logged q (AtPage p) ERROR (FailedAfter (mr + 1) e)])
    else (Ok Retry,
          later w 0 0
            [logged q (AtPage p) RETRY (AttemptFailed (a + 1) (mr + 1) e);
             EvSleep backoff]).
Proof.
  intros W. unfold on_request_exception. unfold session_words in W.
  rewrite W, response_is_403_never. simpl.
  destruct (a >=? mr); run_monad; same_world.
Qed.

Lemma on_request_exception_session q p mr a e st w :
  session_words e = true ->
  on_request_exception q p mr a e st w
  = (Ok (Return PNone (Some E403)),
     later w 0 0 [logged q (AtPage p) ERROR (SessionErrorExc e)]).
Proof.
  intros W. unfold on_request_exception. unfold session_words in W.
  rewrite W. simpl. run_monad. same_world.
Qed.

(** One attempt that fails in a way the fetcher retries. *)
Lemma fetch_attempt_failure q p s mr a w f :
  failure_of (server w (requests_made w)
                {| req_q := q; req_page := p; req_session := s |}) = Some f ->
  fetch_attempt q p s mr a w
  = if a >=? mr
    then (Ok (Return PNone (Some (failure_error f))),
          later w 1 0
            [EvGet {| req_q := q; req_page := p; req_session := s |};
             logged q (AtPage p) ERROR (final_info mr f)])
    else (Ok Retry,
          later w 1 0
            [EvGet {| req_q := q; req_page := p; req_session := s |};
             logged q (AtPage p) RETRY (retry_info mr a f);
             EvSleep backoff]).
Proof.
  intros H. unfold fetch_attempt, bind at 1, http_get; simpl.
  destruct (server w (requests_made w) _) as [sc he c| |e st];
    unfold failure_of, request_exception_text in H.
  - destruct (sc =? 403); [discriminate|].
    destruct ((400 <=? sc) && (sc <? 600)).
    + destruct (session_words he) eqn:W; [discriminate|]. injection H as <-.
      rewrite on_request_exception_failed by exact W.
      destruct (a >=? mr); same_world.
    + destruct c as [d|e]; [discriminate|].
      destruct (session_words e) eqn:W; [discriminate|]. injection H as <-.
      rewrite on_request_exception_failed by exact W.
      destruct (a >=? mr); same_world.
  - injection H as <-. unfold on_timeout.
    destruct (a >=? mr); run_monad; same_world.
  - destruct (session_words e) eqn:W; [discriminate|]. injection H as <-.
    rewrite on_request_exception_failed by exact W.
    destruct (a >=? mr); same_world.
Qed.

(** [k] failed attempts within the budget: the loop goes on with attempt
    number [attempt + k], after [k] requests, RETRY lines and sleeps. *)
Lemma fetch_loop_retries (k : nat) :
  forall fuel q p s mr a w (fs : nat -> failure),
    a + Z.of_nat k <= mr ->
    (forall j, (j < k)%nat ->
       failure_of (server w (j + requests_made w)%nat
                     {| req_q := q; req_page := p; req_session := s |})
       = Some (fs j)) ->
    fetch_loop (k + fuel) q p s mr a w
    = fetch_loop fuel q p s mr (a + Z.of_nat k)
        (later w k 0 (retry_events q p s mr fs k a)).
Proof.
  induction k as [|k IH]; intros fuel q p s mr a w fs Hle Hf.
  - simpl. f_equal; [lia|].
    destruct w; unfold later; simpl. now rewrite app_nil_r.
  - simpl fetch_loop. destruct (Z.leb_spec a mr); [|lia].
    unfold bind at 1. rewrite (fetch_attempt_failure _ _ _ _ _ _ (fs 0%nat));
      [| apply (Hf 0%nat); lia].
    destruct (Z.geb_spec a mr); [lia|].
    rewrite (IH fuel q p s mr (a + 1) _ (fun j => fs (S j))); [| lia |].
    + f_equal; [lia|]. simpl retry_events. same_world.
    + intros j Hj. simpl.
      replace (j + S (requests_made w))%nat with (S j + requests_made w)%nat
        by lia.
      apply Hf. lia.
Qed.

(** One attempt that is answered with a page. *)
Lemma fetch_attempt_answers q p s mr a w (m : gmap string pyval) results :
  answers_page (server w (requests_made w)
                  {| req_q := q; req_page := p; req_session := s |})
    m results ->
  fetch_attempt q p s mr a w
  = (Ok (Return (PDict m) None),
     later w 1 0
       [EvGet {| req_q := q; req_page := p; req_session := s |};
        logged q (AtPage p) SUCCESS (Retrieved (length results))]).
Proof.
  intros (sc & he & Hsrv & H403 & Herr & Hkey & Hres).
  unfold fetch_attempt, bind at 1, http_get; simpl. rewrite Hsrv.
  assert (E1 : (sc =? 403) = false) by (apply Z.eqb_neq; exact H403).
  assert (E2 : (400 <=? sc) && (sc <? 600) = false).
  { destruct (Z.leb_spec 400 sc); [|reflexivity].
    destruct (Z.ltb_spec sc 600); [|reflexivity]. lia. }
  rewrite E1, E2. unfold check_body, report_success, py_get.
  destruct (decide (is_Some (m !! "error"))) as [[v Hv]|_]; [congruence|].
  rewrite Hres. run_monad. same_world.
Qed.

(** X1.  A fetch whose every attempt fails in a way that is retried, be it
    a timeout or another request error without the session words, makes
    [max_retries + 1] requests with a RETRY line and a sleep of two seconds
    after each but the last, logs ERROR for the last, and reports the error
    type of the last attempt alone: ['timeout'] or ['other']. *)
Theorem fetch_page_exhaustion (q : string) (p : Z) (s : string) (mr : Z)
    (w : world) (fs : nat -> failure) :
  0 <= mr ->
  (forall j, (j <= Z.to_nat mr)%nat ->
     failure_of (server w (j + requests_made w)%nat
                   {| req_q := q; req_page := p; req_session := s |})
     = Some (fs j)) ->
  fetch_page q p s mr w
  = (Ok (PNone, Some (failure_error (fs (Z.to_nat mr)))),
     later w (S (Z.to_nat mr)) 0
       (retry_events q p s mr fs (Z.to_nat mr) 0
        ++ [EvGet {| req_q := q; req_page := p; req_session := s |};
            logged q (AtPage p) ERROR (final_info mr (fs (Z.to_nat mr)))])).
Proof.
  intros Hmr Hf. unfold fetch_page.
  replace (S (Z.to_nat (mr + 1))) with (Z.to_nat mr + 2)%nat by lia.
  rewrite (fetch_loop_retries (Z.to_nat mr) 2 q p s mr 0 w fs);
    [| lia | intros j Hj; apply Hf; lia].
  simpl fetch_loop. destruct (Z.leb_spec (0 + Z.of_nat (Z.to_nat mr)) mr); [|lia].
  unfold bind at 1.
  rewrite (fetch_attempt_failure _ _ _ _ _ _ (fs (Z.to_nat mr)));
    [| simpl; apply Hf; lia].
  destruct (Z.geb_spec (0 + Z.of_nat (Z.to_nat mr)) mr); [|lia].
  unfold ret. rewrite later_later. reflexivity.
Qed.

Lemma fetch_page_exhaustion_witness :
  fst (fetch_page "acme" 1 "tok" 2 flaky_world) = Ok (PNone, Some Eother).
Proof.
  rewrite (fetch_page_exhaustion "acme" 1 "tok" 2 flaky_world
             (fun j => if (j <? 2)%nat then TimedOut
                       else Failed "Connection refused")).
  - reflexivity.
  - lia.
  - intros j Hj. destruct j as [|[|[|j]]]; reflexivity.
Defined.

(** X2.  A fetch that [k] times fails in a way that is retried, with [k]
    within the budget, and is then answered with a page, returns that page
    with no error type after [k + 1] requests, [k] RETRY lines and sleeps,
    and one SUCCESS line. *)
Theorem fetch_page_success_after_retries (q : string) (p : Z) (s : string)
    (mr : Z) (w : world) (fs : nat -> failure) (k : nat)
    (m : gmap string pyval) (results : list pyval) :
  Z.of_nat k <= mr ->
  (forall j, (j < k)%nat ->
     failure_of (server w (j + requests_made w)%nat
                   {| req_q := q; req_page := p; req_session := s |})
     = Some (fs j)) ->
  answers_page (server w (k + requests_made w)%nat
                  {| req_q := q; req_page := p; req_session := s |})
    m results ->
  fetch_page q p s mr w
  = (Ok (PDict m, None),
     later w (S k) 0
       (retry_events q p s mr fs k 0
        ++ [EvGet {| req_q := q; req_page := p; req_session := s |};
            logged q (AtPage p) SUCCESS (Retrieved (length results))])).
Proof.
  intros Hk Hf Hans. unfold fetch_page.
  replace (S (Z.to_nat (mr + 1)))
    with (k + S (Z.to_nat (mr + 1) - k))%nat by lia.
  rewrite (fetch_loop_retries k _ q p s mr 0 w fs); [| lia | exact Hf].
  simpl fetch_loop. destruct (Z.leb_spec (0 + Z.of_nat k) mr); [|lia].
  unfold bind at 1.
  rewrite (fetch_attempt_answers _ _ _ _ _ _ m results); [| exact Hans].
  unfold ret. rewrite later_later. reflexivity.
Qed.

Lemma fetch_page_success_after_retries_witness :
  fst (fetch_page "acme" 1 "tok" 2 slow_world) = Ok (PDict lone_page, None).
Proof.
  rewrite (fetch_page_success_after_retries "acme" 1 "tok" 2 slow_world
             (fun _ => TimedOut) 1 lone_page
             [PDict {[ "businessName" := PStr "Acme Sub" ]}]).
  - reflexivity.
  - lia.
  - intros j Hj. destruct j; [reflexivity | lia].
  - exists 200, "". repeat split; try reflexivity; lia.
Defined.

(** X3.  A request error whose text carries "recaptcha" or "session" in any
    letter case, be it the error of the GET itself, of a 4xx or 5xx status
    other than 403 or of decoding the body, ends the fetch on that attempt
    with the error type ['403']: one request, one ERROR line, no retry. *)
Theorem session_word_in_exception_is_403 (fuel : nat) (q : string) (p : Z)
    (s : string) (mr a : Z) (w : world) (e : string) :
  a <= mr ->
  request_exception_text
    (server w (requests_made w)
       {| req_q := q; req_page := p; req_session := s |}) = Some e ->
  mentions e "recaptcha" \/ mentions e "session" ->
  fetch_loop (S fuel) q p s mr a w
  = (Ok (PNone, Some E403),
     later w 1 0
       [EvGet {| req_q := q; req_page := p; req_session := s |};
        logged q (AtPage p) ERROR (SessionErrorExc e)]).
Proof.
  intros Hle Htext Hment.
  assert (W : session_words e = true).
  { unfold session_words. apply orb_true_iff.
    destruct Hment as [H|H]; [left|right];
      now apply contains_lower_mentions. }
  simpl fetch_loop. destruct (Z.leb_spec a mr); [|lia].
  unfold bind at 1; unfold fetch_attempt, bind at 1, http_get; simpl.
  destruct (server w (requests_made w) _) as [sc he c| |e' st];
    unfold request_exception_text in Htext.
  - destruct (sc =? 403); [discriminate|].
    destruct ((400 <=? sc) && (sc <? 600)).
    + injection Htext as ->.
      rewrite on_request_exception_session by exact W. same_world.
    + destruct c as [d|e']; [discriminate|]. injection Htext as ->.
      rewrite on_request_exception_session by exact W. same_world.
  - discriminate.
  - injection Htext as ->.
    rewrite on_request_exception_session by exact W. same_world.
Qed.

Lemma session_word_in_exception_is_403_witness :
  fst (fetch_page "session" 1 "tok" 2 session_query_world)
  = Ok (PNone, Some E403).
Proof.
  change (fetch_page "session" 1 "tok" 2 session_query_world)
    with (fetch_loop 4 "session" 1 "tok" 2 0 session_query_world).
  rewrite (session_word_in_exception_is_403 3 "session" 1 "tok" 2 0
             session_query_world
             "500 Server Error: Internal Server Error for url: /api/search?q=session&page=1").
  - reflexivity.
  - lia.
  - reflexivity.
  - right. apply (contains_lower_mentions "session"); reflexivity.
Defined.

(** ** Page fetcher: bounds and results *)

(** Unfolds one attempt down to the primitives of the world. *)
Ltac open_attempt :=
  unfold fetch_attempt, check_body, report_success, on_request_exception,
    on_timeout, bind, lift, ret, http_get, log_message, time_sleep,
    res_bind, py_get, py_lower, py_len; simpl.

Lemma fetch_attempt_one_request q p s mr a w :
  requests_made (snd (fetch_attempt q p s mr a w)) = S (requests_made w).
Proof. open_attempt. repeat innermost_case; reflexivity. Qed.

Lemma fetch_attempt_retry_within q p s mr a w :
  fst (fetch_attempt q p s mr a w) = Ok Retry -> a < mr.
Proof.
  open_attempt. destruct (Z.geb_spec a mr) as [Hge|Hlt]; [| intros _; lia].
  repeat innermost_case; discriminate.
Qed.

Lemma fetch_attempt_shape q p s mr a w d e :
  fst (fetch_attempt q p s mr a w) = Ok (Return d e) ->
  (d = PNone /\ exists err, e = Some err)
  \/ (exists m : gmap string pyval, d = PDict m /\ e = None).
Proof.
  open_attempt.
  repeat innermost_case; try discriminate; intros [= <- <-]; eauto.
Qed.

Lemma fetch_loop_requests fuel q p s mr :
  forall a w,
    (requests_made (snd (fetch_loop fuel q p s mr a w))
     <= requests_made w + Z.to_nat (mr + 1 - a))%nat.
Proof.
  induction fuel as [|fuel IH]; intros a w; simpl; [lia|].
  destruct (Z.leb_spec a mr); [|simpl; lia].
  unfold bind.
  pose proof (fetch_attempt_one_request q p s mr a w) as H1.
  pose proof (fetch_attempt_retry_within q p s mr a w) as H2.
  destruct (fetch_attempt q p s mr a w) as [[[d e|]|e|] w1]; simpl in *;
    try lia.
  specialize (IH (a + 1) w1). lia.
Qed.

(** X4.  A fetch never makes more than [max_retries + 1] requests; with a
    budget that is not negative it makes at least one, and with a negative
    budget it makes none, logs nothing and reports ['other']. *)
Theorem fetch_page_request_budget (q : string) (p : Z) (s : string)
    (mr : Z) (w : world) :
  (requests_made (snd (fetch_page q p s mr w))
   <= requests_made w + Z.to_nat (mr + 1))%nat
  /\ (0 <= mr ->
      (S (requests_made w) <= requests_made (snd (fetch_page q p s mr w)))%nat)
  /\ (mr < 0 -> fetch_page q p s mr w = (Ok (PNone, Some Eother), w)).
Proof.
  split; [|split].
  - pose proof (fetch_loop_requests (S (Z.to_nat (mr + 1))) q p s mr 0 w) as H.
    replace (mr + 1 - 0) with (mr + 1) in H by lia. exact H.
  - intros Hmr. unfold fetch_page. simpl fetch_loop.
    destruct (Z.leb_spec 0 mr); [|lia].
    match goal with
    | |- context [bind ?m ?k w] =>
        assert (Hk : forall r, monotone (k r))
    end.
    { intros [d e|]; auto with monotone. apply monotone_fetch_loop. }
    unfold bind.
    pose proof (fetch_attempt_one_request q p s mr 0 w) as H1.
    destruct (fetch_attempt q p s mr 0 w) as [[r|e|] w1]; simpl in *;
      try lia.
    destruct (Hk r w1) as (_ & _ & Hr & _). lia.
  - intros Hmr. unfold fetch_page. simpl fetch_loop.
    destruct (Z.leb_spec 0 mr); [lia|]. reflexivity.
Qed.

Lemma fetch_loop_shape fuel q p s mr :
  forall a w d e w',
    fetch_loop fuel q p s mr a w = (Ok (d, e), w') ->
    (d = PNone /\ exists err, e = Some err)
    \/ (exists m : gmap string pyval, d = PDict m /\ e = None).
Proof.
  induction fuel as [|fuel IH]; intros a w d e w'; simpl; [discriminate|].
  destruct (a <=? mr); [| intros [= <- <- _]; eauto].
  unfold bind.
  pose proof (fetch_attempt_shape q p s mr a w) as H1.
  destruct (fetch_attempt q p s mr a w) as [[[d1 e1|]|e1|] w1]; simpl in *;
    try discriminate.
  - intros [= <- <- _]. apply H1. reflexivity.
  - apply IH.
Qed.

(** X5.  What a fetch returns is either no page together with an error
    type, or a page that is a JSON object together with no error type:
    never a page with an error type, and never neither. *)
Theorem fetch_page_result_shape (q : string) (p : Z) (s : string) (mr : Z)
    (w w' : world) (d : pyval) (e : option error_type) :
  fetch_page q p s mr w = (Ok (d, e), w') ->
  (d = PNone /\ exists err, e = Some err)
  \/ (exists m : gmap string pyval, d = PDict m /\ e = None).
Proof. apply fetch_loop_shape. Qed.

Lemma fetch_page_result_shape_witness :
  (PNone = PNone /\ exists err, Some Etimeout = Some err)
  \/ (exists m : gmap string pyval, PNone = PDict m /\ Some Etimeout = None).
Proof.
  apply (fetch_page_result_shape "acme" 1 "tok" 2 all_timeouts
           (snd (fetch_page "acme" 1 "tok" 2 all_timeouts))).
  reflexivity.
Defined.

(** X6.  A body that decodes to something other than a JSON object, under a
    status that is neither 403 nor another 4xx or 5xx, ends the whole run
    with an uncaught exception right after the first request: a TypeError
    for null, a boolean or a number, an AttributeError for a list or a
    text.  Only the SESSION_START line is logged and nothing is written. *)
Theorem non_object_body_ends_run (fuel : nat) (q s : string) (start : Z)
    (delay : Q) (w : world) (sc : Z) (he : string) (d : pyval) :
  server w (requests_made w)
    {| req_q := q; req_page := start; req_session := s |}
  = Response sc he (JsonBody d) ->
  sc <> 403 -> ~ (400 <= sc < 600) ->
  (forall m : gmap string pyval, d <> PDict m) ->
  fetch_all_pages (S fuel) q s start delay w
  = (Raise (body_exception d),
     later w 1 0
       [logged q AtStart SESSION_START (StartingScrape q);
        EvGet {| req_q := q; req_page := start; req_session := s |}]).
Proof.
  intros Hsrv H403 Herr Hd.
  assert (E1 : (sc =? 403) = false) by (apply Z.eqb_neq; exact H403).
  assert (E2 : (400 <=? sc) && (sc <? 600) = false).
  { destruct (Z.leb_spec 400 sc); [|reflexivity].
    destruct (Z.ltb_spec sc 600); [|reflexivity]. lia. }
  unfold fetch_all_pages, bind at 1, log_message. simpl run_loop.
  unfold bind at 1 2; unfold loop_body, bind at 1; unfold fetch_page.
  simpl fetch_loop. unfold bind at 1; unfold fetch_attempt, bind at 1, http_get.
  simpl. rewrite Hsrv, E1, E2.
  destruct d; try (now destruct (Hd m)); simpl; same_world.
Qed.

Lemma non_object_body_ends_run_witness :
  fst (fetch_all_pages 1 "acme" "tok" 1 (inject_Z 1) list_body_world)
  = Raise AttributeError.
Proof.
  rewrite (non_object_body_ends_run 0 "acme" "tok" 1 (inject_Z 1)
             list_body_world 200 "" (PList [])).
  - reflexivity.
  - reflexivity.
  - discriminate.
  - lia.
  - intros m. discriminate.
Defined.

(** ** Pagination driver: what a pass and a run keep *)

(** A pass that processes a page and ends well: the records it wrote are
    the ones it counted, and the cursor moved by at most one page. *)
Lemma process_page_result q d st pd w r w1 :
  process_page q d st pd w = (Ok r, w1) ->
  exists filtered : list filtered_record,
    output_file w1 = output_file w ++ filtered
    /\ total_results_collected (state_of r)
       = total_results_collected st + Z.of_nat (length filtered)
    /\ (current_page (state_of r) = current_page st
        \/ current_page (state_of r) = current_page st + 1).
Proof.
  unfold process_page, capture_total_pages.
  set (adv := advance q d (session_id st) (current_page st)).
  destruct (total_pages st) eqn:Etp; destruct pd; run_monad;
    try discriminate; repeat innermost_case; try discriminate; subst adv;
    intros H;
    match type of H with
    | advance _ _ _ _ _ (_ + Z.of_nat (length ?l)) ?w0 = _ =>
        exists l;
        pose proof (advance_output_file q d (session_id st) (current_page st)
                      ltac:(match type of H with
                            | advance _ _ _ _ ?tp _ _ = _ => exact tp
                            end)
                      (total_results_collected st + Z.of_nat (length l)) w0)
          as Hf;
        rewrite H in Hf; simpl in Hf;
        apply advance_state in H as (_ & _ & Ht & Hc);
        repeat split; assumption
    end.
Qed.

Lemma await_credential_file q st w :
  output_file (snd (await_credential q st w)) = output_file w.
Proof.
  unfold await_credential. run_monad. destruct (String.eqb _ _); reflexivity.
Qed.

(** What one pass that ends well does to the output file, the running
    total and the cursor. *)
Lemma loop_body_result q d st w r w1 :
  loop_body q d st w = (Ok r, w1) ->
  exists batch : list filtered_record,
    output_file w1 = output_file w ++ batch
    /\ total_results_collected (state_of r)
       = total_results_collected st + Z.of_nat (length batch)
    /\ (current_page (state_of r) = current_page st
        \/ current_page (state_of r) = current_page st + 1).
Proof.
  unfold loop_body, bind at 1.
  destruct (quiet_fetch_page q (current_page st) (session_id st)
              default_max_retries w) as [Hfile _].
  destruct (fetch_page q (current_page st) (session_id st)
              default_max_retries w) as [[[pd err]|e|] w0];
    try discriminate. simpl in Hfile.
  assert (P : forall pd', process_page q d st pd' w0 = (Ok r, w1) ->
              exists batch : list filtered_record,
                output_file w1 = output_file w ++ batch
                /\ total_results_collected (state_of r)
                   = total_results_collected st + Z.of_nat (length batch)
                /\ (current_page (state_of r) = current_page st
                    \/ current_page (state_of r) = current_page st + 1)).
  { intros pd' H. apply process_page_result in H as (f & H1 & H2 & H3).
    exists f. rewrite H1, Hfile. auto. }
  destruct pd; try apply P.
  assert (N : forall w2, output_file w2 = output_file w ->
              total_results_collected (state_of r) = total_results_collected st ->
              current_page (state_of r) = current_page st ->
              w2 = w1 ->
              exists batch : list filtered_record,
                output_file w1 = output_file w ++ batch
                /\ total_results_collected (state_of r)
                   = total_results_collected st + Z.of_nat (length batch)
                /\ (current_page (state_of r) = current_page st
                    \/ current_page (state_of r) = current_page st + 1)).
  { intros w2 H1 H2 H3 <-. exists []. rewrite app_nil_r. simpl.
    repeat split; auto; lia. }
  destruct err as [[]|]; intros H.
  - pose proof (await_credential_file q st w0) as Hf. rewrite H in Hf.
    apply await_credential_state in H as (_ & Hc & Ht).
    apply (N w1); auto. simpl in Hf. congruence.
  - pose proof (await_credential_file q st w0) as Hf. rewrite H in Hf.
    apply await_credential_state in H as (_ & Hc & Ht).
    apply (N w1); auto. simpl in Hf. congruence.
  - unfold stop_after_retries in H. revert H. run_monad.
    intros [= <- <-]. exists []. rewrite app_nil_r. simpl.
    repeat split; auto; lia.
  - unfold stop_after_retries in H. revert H. run_monad.
    intros [= <- <-]. exists []. rewrite app_nil_r. simpl.
    repeat split; auto; lia.
Qed.

Lemma run_loop_result fuel q d :
  forall st w t st' w',
    run_loop fuel q d st w = (Ok (t, st'), w') ->
    exists batch : list filtered_record,
      output_file w' = output_file w ++ batch
      /\ total_results_collected st'
         = total_results_collected st + Z.of_nat (length batch)
      /\ current_page st <= current_page st'.
Proof.
  induction fuel as [|fuel IH]; intros st w t st' w'; simpl; [discriminate|].
  unfold bind.
  destruct (loop_body q d st w) as [[r|e|] w1] eqn:E; try discriminate.
  apply loop_body_result in E as (b1 & F1 & T1 & C1).
  destruct r as [st1|t1 st1]; simpl in *.
  - intros H. apply IH in H as (b2 & F2 & T2 & C2).
    exists (b1 ++ b2). rewrite F2, F1, T2, T1, length_app, app_assoc.
    repeat split; lia.
  - intros [= <- <- <-]. exists b1. repeat split; auto; lia.
Qed.

(** X7.  The total a run returns is the number of records the run added to
    the output file, and what was in the file before is still there, as a
    prefix. *)
Theorem returned_total_counts_written_records (fuel : nat) (q s : string)
    (start : Z) (delay : Q) (w w' : world) (total : Z) :
  fetch_all_pages fuel q s start delay w = (Ok total, w') ->
  exists batch : list filtered_record,
    output_file w' = output_file w ++ batch
    /\ total = Z.of_nat (length batch).
Proof.
  unfold fetch_all_pages, bind at 1, log_message. unfold bind.
  destruct (run_loop fuel q delay _ _) as [[[t st']|e|] w1] eqn:E;
    try discriminate.
  apply run_loop_result in E as (batch & F & T & _).
  intros [= <- <-]. exists batch. simpl in *. split; [exact F | lia].
Qed.

Lemma returned_total_counts_written_records_witness :
  exists batch : list filtered_record,
    output_file (snd (fetch_all_pages 5 "acme" "tok" 1 (inject_Z 1) acme_world))
    = output_file acme_world ++ batch
    /\ 2 = Z.of_nat (length batch).
Proof.
  apply (returned_total_counts_written_records 5 "acme" "tok" 1 (inject_Z 1)
           acme_world).
  vm_compute. reflexivity.
Defined.

(** X8.  Across passes of the loop the cursor never goes back, the running
    total never goes down, and the running total grows by exactly the number
    of records the passes added at the end of the output file. *)
Theorem passes_only_move_forward (q : string) (d : Q)
    (st st' : driver_state) (w w' : world) :
  continues q d st w st' w' ->
  current_page st <= current_page st'
  /\ total_results_collected st <= total_results_collected st'
  /\ exists batch : list filtered_record,
       output_file w' = output_file w ++ batch
       /\ total_results_collected st'
          = total_results_collected st + Z.of_nat (length batch).
Proof.
  induction 1 as [st w|st w st1 w1 st2 w2 Hstep _ IH].
  - repeat split; try lia. exists []. rewrite app_nil_r. simpl. split; [auto|lia].
  - apply loop_body_result in Hstep as (b1 & F1 & T1 & C1). simpl in *.
    destruct IH as (C2 & T2 & b2 & F2 & T3).
    repeat split; try lia.
    exists (b1 ++ b2). rewrite F2, F1, T3, T1, length_app, app_assoc.
    split; [reflexivity | lia].
Qed.

Lemma passes_only_move_forward_witness :
  current_page (start_state "tok" 1) <= current_page acme_after_first.
Proof.
  apply (passes_only_move_forward "acme" (inject_Z 1) (start_state "tok" 1)
           acme_after_first acme_world
           (snd (loop_body "acme" (inject_Z 1) (start_state "tok" 1)
                   acme_world))).
  eapply continues_pass; [| apply continues_here].
  vm_compute. reflexivity.
Defined.

(** ** Pagination driver: a run without failures *)

Lemma fetch_page_answers q p s mr w (m : gmap string pyval) results :
  0 <= mr ->
  answers_page (server w (requests_made w)
                  {| req_q := q; req_page := p; req_session := s |})
    m results ->
  fetch_page q p s mr w
  = (Ok (PDict m, None),
     later w 1 0
       [EvGet {| req_q := q; req_page := p; req_session := s |};
        logged q (AtPage p) SUCCESS (Retrieved (length results))]).
Proof.
  intros Hmr Hans. unfold fetch_page. simpl fetch_loop.
  destruct (Z.leb_spec 0 mr); [|lia]. unfold bind at 1.
  now rewrite (fetch_attempt_answers _ _ _ _ _ _ m results).
Qed.

Lemma serves_pages_answers page_of raw filt w n q p s :
  serves_pages page_of w -> well_formed_pages page_of raw filt ->
  answers_page (server w n {| req_q := q; req_page := p; req_session := s |})
    (page_of p) (raw p).
Proof.
  intros Hs Hw. destruct (Hs n {| req_q := q; req_page := p; req_session := s |})
    as (sc & he & E & H1 & H2).
  destruct (Hw p) as (H3 & H4 & _). exists sc, he. simpl in E. auto.
Qed.

(** One pass over a page that is served and well formed. *)
Lemma loop_body_page q delay N page_of raw filt st w :
  serves_pages page_of w -> well_formed_pages page_of raw filt ->
  (0 <= delay)%Q -> count_settles page_of N st ->
  loop_body q delay st w
  = if N <=? current_page st
    then (Ok (Break DONE
                {| session_id := session_id st;
                   current_page := current_page st;
                   total_pages := PInt N;
                   total_results_collected :=
                     total_results_collected st
                     + Z.of_nat (length (filt (current_page st))) |}),
          later (written w (filt (current_page st))) 1 0
            [EvGet {| req_q := q; req_page := current_page st;
                      req_session := session_id st |};
             logged q (AtPage (current_page st)) SUCCESS
               (Retrieved (length (raw (current_page st))));
             logged q (PageSpan (PInt N)) COMPLETED
               (AllFetched (total_results_collected st
                            + Z.of_nat (length (filt (current_page st)))))])
    else (Ok (Continue
                {| session_id := session_id st;
                   current_page := current_page st + 1;
                   total_pages := PInt N;
                   total_results_collected :=
                     total_results_collected st
                     + Z.of_nat (length (filt (current_page st))) |}),
          later (written w (filt (current_page st))) 1 0
            [EvGet {| req_q := q; req_page := current_page st;
                      req_session := session_id st |};
             logged q (AtPage (current_page st)) SUCCESS
               (Retrieved (length (raw (current_page st))));
             EvSleep delay]).
Proof.
  intros Hs Hw Hd Hc. apply Qle_bool_iff in Hd.
  unfold loop_body, bind at 1.
  rewrite (fetch_page_answers _ _ _ _ _ (page_of (current_page st))
             (raw (current_page st)));
    [| unfold default_max_retries; lia
     | eapply serves_pages_answers; eauto].
  destruct (Hw (current_page st)) as (_ & Hres & Hmap).
  unfold process_page, capture_total_pages, advance, py_ge, py_le, py_int.
  destruct Hc as [Hc | [Hc Htp]]; rewrite Hc; run_monad;
    rewrite ?Htp; simpl; rewrite Hres; simpl; rewrite Hmap; simpl;
    (destruct (Z.leb_spec N (current_page st));
     [ same_world
     | destruct (Z.leb_spec (current_page st + 1) N); [|lia];
       unfold time_sleep; rewrite Hd; same_world ]).
Qed.

Lemma run_loop_pages q delay N page_of raw filt (n : nat) :
  forall fuel st w,
    serves_pages page_of w -> well_formed_pages page_of raw filt ->
    (0 <= delay)%Q -> count_settles page_of N st ->
    n = Z.to_nat (N - current_page st) -> (n < fuel)%nat ->
    run_loop fuel q delay st w
    = (Ok (DONE,
           {| session_id := session_id st;
              current_page := current_page st + Z.of_nat n;
              total_pages := PInt N;
              total_results_collected :=
                total_results_collected st
                + Z.of_nat (length (pages_records filt n (current_page st))) |}),
       later (written w (pages_records filt n (current_page st))) (S n) 0
         (pages_events q (session_id st) delay raw n (current_page st)
          ++ [logged q (PageSpan (PInt N)) COMPLETED
                (AllFetched
                   (total_results_collected st
                    + Z.of_nat (length (pages_records filt n
                                          (current_page st)))))])).
Proof.
  induction n as [|n IH]; intros fuel st w Hs Hw Hd Hc Hn Hf;
    (destruct fuel as [|fuel]; [lia|]); simpl run_loop; unfold bind at 1;
    rewrite (loop_body_page q delay N page_of raw filt st w Hs Hw Hd Hc).
  - destruct (Z.leb_spec N (current_page st)); [|lia].
    unfold ret. simpl. rewrite app_nil_r, Z.add_0_r. same_world.
  - destruct (Z.leb_spec N (current_page st)); [lia|].
    rewrite IH; auto; simpl; try lia.
    + rewrite length_app, Nat2Z.inj_add, !Z.add_assoc.
      replace (current_page st + Z.of_nat (S n))
        with (current_page st + 1 + Z.of_nat n) by lia.
      same_world.
    + left. reflexivity.
Qed.

(** A whole run over pages that are served and well formed. *)
Lemma run_over_pages (fuel : nat) (q s : string) (start : Z)
    (delay : Q) (N : Z) (page_of : Z -> gmap string pyval)
    (raw : Z -> list pyval) (filt : Z -> list filtered_record) (w : world) :
  serves_pages page_of w ->
  well_formed_pages page_of raw filt ->
  (0 <= delay)%Q ->
  page_of start !! "totalPages" = Some (PInt N) ->
  (Z.to_nat (N - start) < fuel)%nat ->
  fetch_all_pages fuel q s start delay w
  = (Ok (Z.of_nat (length (pages_records filt (Z.to_nat (N - start)) start))),
     later (written w (pages_records filt (Z.to_nat (N - start)) start))
       (S (Z.to_nat (N - start))) 0
       (logged q AtStart SESSION_START (StartingScrape q)
        :: pages_events q s delay raw (Z.to_nat (N - start)) start
        ++ [logged q (PageSpan (PInt N)) COMPLETED
              (AllFetched
                 (Z.of_nat (length (pages_records filt
                                      (Z.to_nat (N - start)) start))))])).
Proof.
  intros Hs Hw Hd Htp Hf.
  unfold fetch_all_pages, bind at 1, log_message. unfold bind at 1.
  rewrite (run_loop_pages q delay N page_of raw filt (Z.to_nat (N - start)));
    auto.
  - unfold ret. simpl. same_world.
  - right. simpl. auto.
Qed.


(** X9.  On a network that answers every request with the page asked for,
    where the pages are well formed and the first one reports an integer
    page count N, a run from page [start] ends with DONE given fuel for its
    passes: it requests the pages start, start + 1, ..., N in this order,
    each once and with the same credential, sleeps the delay between two
    pages, writes their filtered records in page order, logs COMPLETED and
    returns the number of those records.  A start beyond N gives a run over
    the page [start] alone. *)
Theorem run_fetches_every_page (fuel : nat) (q s : string) (start : Z)
    (delay : Q) (N : Z) (page_of : Z -> gmap string pyval)
    (raw : Z -> list pyval) (filt : Z -> list filtered_record) (w : world) :
  serves_pages page_of w ->
  well_formed_pages page_of raw filt ->
  (0 <= delay)%Q ->
  page_of start !! "totalPages" = Some (PInt N) ->
  (Z.to_nat (N - start) < fuel)%nat ->
  fetch_all_pages fuel q s start delay w
  = (Ok (Z.of_nat (length (pages_records filt (Z.to_nat (N - start)) start))),
     later (written w (pages_records filt (Z.to_nat (N - start)) start))
       (S (Z.to_nat (N - start))) 0
       (logged q AtStart SESSION_START (StartingScrape q)
        :: pages_events q s delay raw (Z.to_nat (N - start)) start
        ++ [logged q (PageSpan (PInt N)) COMPLETED
              (AllFetched
                 (Z.of_nat (length (pages_records filt
                                      (Z.to_nat (N - start)) start))))])).
Proof. apply run_over_pages. Qed.

Lemma run_fetches_every_page_witness :
  fst (fetch_all_pages 2 "acme" "tok" 1 (inject_Z 1) acme_world) = Ok 2.
Proof.
  rewrite (run_fetches_every_page 2 "acme" "tok" 1 (inject_Z 1) 2
             acme_pages acme_raw acme_filtered acme_world).
  - reflexivity.
  - intros n r. exists 200, "". simpl. unfold acme_pages, acme_page.
    destruct (req_page r =? 1); repeat split; try discriminate; lia.
  - intros p. unfold acme_pages, acme_raw, acme_filtered.
    destruct (p =? 1); repeat split; vm_compute; reflexivity.
  - discriminate.
  - reflexivity.
  - simpl. lia.
Defined.

(** ** Pagination driver: the prompt *)

(** X10.  After a fetch that ends with ['timeout'] or ['403'], a line that
    is the word "quit" in any letter case, with or without white space
    around it, ends the run: the state, and with it the total the run
    returns, is the one the pass started with, one STOPPED line is logged,
    and no further request is made. *)
Theorem stop_word_ends_run (fuel : nat) (q : string) (d : Q)
    (st : driver_state) (w w1 : world) (err : error_type) :
  fetch_page q (current_page st) (session_id st) default_max_retries w
  = (Ok (PNone, Some err), w1) ->
  err = Etimeout \/ err = E403 ->
  lower (strip (operator w1 (inputs_read w1))) = "quit" ->
  run_loop (S fuel) q d st w
  = (Ok (STOPPED_RUN, st),
     later w1 0 1
       [EvInput (operator w1 (inputs_read w1));
        logged q (AtPage (current_page st)) STOPPED UserQuit]).
Proof.
  intros Hfetch Herr Hline. simpl run_loop.
  unfold bind at 1; unfold loop_body, bind at 1. rewrite Hfetch.
  assert (E : String.eqb (lower (strip (operator w1 (inputs_read w1))))
                "quit" = true) by now apply String.eqb_eq.
  destruct Herr as [-> | ->]; unfold await_credential; run_monad;
    rewrite E; same_world.
Qed.

Lemma stop_word_ends_run_witness :
  fst (run_loop 1 "acme" (inject_Z 1) acme_after_first
         (forbidden_world (fun _ => "  QUIT ")))
  = Ok (STOPPED_RUN, acme_after_first).
Proof.
  rewrite (stop_word_ends_run 0 "acme" (inject_Z 1) acme_after_first
             (forbidden_world (fun _ => "  QUIT "))
             (snd (fetch_page "acme" 2 "tok" default_max_retries
                     (forbidden_world (fun _ => "  QUIT "))))
             E403).
  - reflexivity.
  - reflexivity.
  - right. reflexivity.
  - reflexivity.
Defined.

(** One pass on a 403 with an operator who hands in a new session id. *)
Lemma loop_body_forbidden_renewal q d st w he c :
  server w (requests_made w)
    {| req_q := q; req_page := current_page st;
       req_session := session_id st |}
  = Response 403 he c ->
  lower (strip (operator w (inputs_read w))) <> "quit" ->
  loop_body q d st w
  = (Ok (Continue (with_session st (strip (operator w (inputs_read w))))),
     later w 1 1
       [EvGet {| req_q := q; req_page := current_page st;
                 req_session := session_id st |};
        logged q (AtPage (current_page st)) ERROR Forbidden403;
        EvInput (operator w (inputs_read w));
        logged q (AtPage (current_page st)) NEW_SESSION
          (Resuming (current_page st))]).
Proof.
  intros Hsrv Hline.
  assert (E : String.eqb (lower (strip (operator w (inputs_read w))))
                "quit" = false) by now apply String.eqb_neq.
  unfold loop_body, bind at 1; unfold fetch_page. simpl fetch_loop.
  unfold bind at 1; unfold fetch_attempt, bind at 1, http_get. simpl.
  rewrite Hsrv. simpl. unfold await_credential. run_monad. rewrite E.
  same_world.
Qed.

(** X11.  The loop sets no bound on renewals: on a network that answers
    every request with 403, with an operator who never types the stop word,
    no number of passes ends the run; every pass makes one request and
    reads one line, and the output file stays as it was. *)
Theorem renewals_have_no_bound (fuel : nat) (q : string) (d : Q) :
  forall (st : driver_state) (w : world),
    (forall n r, exists he c, server w n r = Response 403 he c) ->
    (forall n, lower (strip (operator w n)) <> "quit") ->
    fst (run_loop fuel q d st w) = Diverge
    /\ requests_made (snd (run_loop fuel q d st w))
       = (fuel + requests_made w)%nat
    /\ inputs_read (snd (run_loop fuel q d st w)) = (fuel + inputs_read w)%nat
    /\ output_file (snd (run_loop fuel q d st w)) = output_file w.
Proof.
  induction fuel as [|fuel IH]; intros st w Hsrv Hop; simpl run_loop.
  - repeat split.
  - unfold bind at 1 2 3 4.
    destruct (Hsrv (requests_made w)
                {| req_q := q; req_page := current_page st;
                   req_session := session_id st |}) as (he & c & E).
    rewrite (loop_body_forbidden_renewal q d st w he c E (Hop _)).
    match goal with
    | |- context [run_loop fuel q d ?st1 ?w1] =>
        destruct (IH st1 w1) as (H1 & H2 & H3 & H4);
          [exact Hsrv | exact Hop |]
    end.
    rewrite H1, H2, H3, H4. simpl. repeat split; lia.
Qed.

Lemma renewals_have_no_bound_witness :
  fst (run_loop 7 "acme" (inject_Z 1) (start_state "tok" 1)
         (forbidden_world (fun _ => "tok2")))
  = Diverge.
Proof.
  apply (renewals_have_no_bound 7 "acme" (inject_Z 1) (start_state "tok" 1)
           (forbidden_world (fun _ => "tok2"))).
  - intros n r. exists "", (NotJson ""). reflexivity.
  - intros n. discriminate.
Defined.

(** ** The program as a whole: [main] *)

(** X12.  [main] turns down a query and a session id that are empty or
    white space only: it reads the one line, or the two, returns without a
    total, and makes no request, writes no log line and no record. *)
Theorem main_rejects_blank_input (parse_int : string -> res Z)
    (parse_float : string -> res Q) (fuel : nat) (w : world) :
  (strip (operator w (inputs_read w)) = "" ->
   main parse_int parse_float fuel w
   = (Ok None, later w 0 1 [EvInput (operator w (inputs_read w))]))
  /\ (strip (operator w (inputs_read w)) <> "" ->
      strip (operator w (S (inputs_read w))) = "" ->
      main parse_int parse_float fuel w
      = (Ok None,
         later w 0 2
           [EvInput (operator w (inputs_read w));
            EvInput (operator w (S (inputs_read w)))])).
Proof.
  split.
  - intros H. unfold main, bind at 1, input. simpl. rewrite H. simpl.
    same_world.
  - intros H1 H2. apply String.eqb_neq in H1.
    unfold main, bind at 1, input. simpl. rewrite H1.
    unfold bind at 1. simpl. unfold main_session_check. rewrite H2. simpl.
    same_world.
Qed.

Lemma main_rejects_blank_input_witness :
  main (fun _ => Raise ValueError) (fun _ => Raise ValueError) 5
    (forbidden_world (fun _ => "   "))
  = (Ok None, later (forbidden_world (fun _ => "   ")) 0 1 [EvInput "   "]).
Proof.
  apply (main_rejects_blank_input (fun _ => Raise ValueError)
           (fun _ => Raise ValueError) 5 (forbidden_world (fun _ => "   "))).
  reflexivity.
Defined.

(** X13.  With a query and a session id that are not blank and two blank
    lines for the start page and the delay, [main] runs [fetch_all_pages]
    on the stripped query and session id from page 1 with a delay of one
    second, whatever [int] and [float] would do, and hands on its total or
    its exception. *)
Theorem main_defaults (parse_int : string -> res Z)
    (parse_float : string -> res Q) (fuel : nat) (w : world) :
  strip (operator w (inputs_read w)) <> "" ->
  strip (operator w (S (inputs_read w))) <> "" ->
  strip (operator w (S (S (inputs_read w)))) = "" ->
  strip (operator w (S (S (S (inputs_read w))))) = "" ->
  main parse_int parse_float fuel w
  = (do total <- fetch_all_pages fuel
                   (strip (operator w (inputs_read w)))
                   (strip (operator w (S (inputs_read w)))) 1 (inject_Z 1) ;
     ret (Some total))
      (later w 0 4
         [EvInput (operator w (inputs_read w));
          EvInput (operator w (S (inputs_read w)));
          EvInput (operator w (S (S (inputs_read w))));
          EvInput (operator w (S (S (S (inputs_read w)))))]).
Proof.
  intros H1 H2 H3 H4.
  apply String.eqb_neq in H1. apply String.eqb_neq in H2.
  unfold main, bind at 1, input. simpl. rewrite H1.
  unfold bind at 1. simpl. unfold main_session_check. rewrite H2.
  unfold bind at 1. simpl. rewrite H3. simpl.
  unfold bind at 1, lift at 1. unfold bind at 1. simpl. rewrite H4. simpl.
  unfold bind at 1, lift at 1.
  f_equal. same_world.
Qed.

Lemma main_defaults_witness :
  fst (main (fun _ => Raise ValueError) (fun _ => Raise ValueError) 5
         (fresh_world (server acme_world) operator_script))
  = Ok (Some 2).
Proof.
  rewrite (main_defaults (fun _ => Raise ValueError)
             (fun _ => Raise ValueError) 5
             (fresh_world (server acme_world) operator_script)).
  - vm_compute. reflexivity.
  - discriminate.
  - discriminate.
  - reflexivity.
  - reflexivity.
Defined.



(** ** The log line *)

Lemma string_app_assoc (a b c : string) :
  (a +:+ b) +:+ c = a +:+ b +:+ c.
Proof.
  induction a as [|x a IH]; [reflexivity|].
  change (String x ((a +:+ b) +:+ c) = String x (a +:+ b +:+ c)).
  now rewrite IH.
Qed.

Lemma has_newline_app (a b : string) :
  has_newline (a +:+ b) = has_newline a || has_newline b.
Proof.
  induction a as [|c a IH]; simpl; [reflexivity|].
  now rewrite IH, orb_assoc.
Qed.

Lemma has_newline_lstrip (s : string) :
  has_newline s = false -> has_newline (lstrip s) = false.
Proof.
  induction s as [|c s IH]; simpl; [reflexivity|].
  intros H. apply orb_false_iff in H as [Hc Hs].
  destruct (is_space c); [apply IH; exact Hs|].
  simpl. now rewrite Hc, Hs.
Qed.

Lemma has_newline_rstrip (s : string) :
  has_newline s = false -> has_newline (rstrip s) = false.
Proof.
  induction s as [|c s IH]; simpl; [reflexivity|].
  intros H. apply orb_false_iff in H as [Hc Hs]. specialize (IH Hs).
  destruct (rstrip s) as [|c' t].
  - destruct (is_space c); simpl; [reflexivity | now rewrite Hc].
  - simpl in *. now rewrite Hc, IH.
Qed.

Lemma lstrip_before_newline (body : string) :
  lstrip (body +:+ newline) = lstrip body +:+ newline
  \/ lstrip (body +:+ newline) = "".
Proof.
  induction body as [|c body IH]; simpl.
  - right. reflexivity.
  - destruct (is_space c); [exact IH | left; reflexivity].
Qed.

Lemma rstrip_newline (s : string) : rstrip (s +:+ newline) = rstrip s.
Proof.
  induction s as [|c s IH]; simpl; [reflexivity|]. now rewrite IH.
Qed.

(** X15.  When none of its five texts holds a line break, the entry
    [log_message] writes is one line: a text without a line break, followed
    by the one line break that ends it; and what it prints to the console
    is without any line break. *)
Theorem log_entry_is_one_line (datetime_str query page status extra : string) :
  has_newline datetime_str = false -> has_newline query = false ->
  has_newline page = false -> has_newline status = false ->
  has_newline extra = false ->
  (exists body : string,
     log_line datetime_str query page status extra = body +:+ newline
     /\ has_newline body = false)
  /\ has_newline (console_line datetime_str query page status extra) = false.
Proof.
  intros Hd Hq Hp Hs He.
  assert (B : exists body : string,
            log_line datetime_str query page status extra = body +:+ newline
            /\ has_newline body = false).
  { unfold log_line. destruct (String.eqb extra "").
    - exists (datetime_str +:+ " UTC | Query: " +:+ query +:+ " | Page: "
              +:+ page +:+ " | Status: " +:+ status).
      split.
      + rewrite !string_app_assoc. reflexivity.
      + rewrite !has_newline_app, Hd, Hq, Hp, Hs. reflexivity.
    - exists (datetime_str +:+ " UTC | Query: " +:+ query +:+ " | Page: "
              +:+ page +:+ " | Status: " +:+ status +:+ " | " +:+ extra).
      split.
      + rewrite !string_app_assoc. reflexivity.
      + rewrite !has_newline_app, Hd, Hq, Hp, Hs, He. reflexivity. }
  split; [exact B|].
  destruct B as (body & E & Hb). unfold console_line, strip. rewrite E.
  destruct (lstrip_before_newline body) as [-> | ->]; [|reflexivity].
  rewrite rstrip_newline. apply has_newline_rstrip, has_newline_lstrip, Hb.
Qed.

Lemma log_entry_is_one_line_witness :
  has_newline
    (console_line "2024-01-01 00:00:00" "acme" "1" "SUCCESS"
       "Retrieved 1 results")
  = false.
Proof.
  apply (log_entry_is_one_line "2024-01-01 00:00:00" "acme" "1" "SUCCESS"
           "Retrieved 1 results"); reflexivity.
Defined.

(** A line break in the query breaks the entry in two. *)
Example log_entry_with_line_break :
  exists a b : string,
    log_line "2024-01-01 00:00:00" ("ac" +:+ newline +:+ "me") "1" "SUCCESS" ""
    = a +:+ newline +:+ b +:+ newline.
Proof.
  exists "2024-01-01 00:00:00 UTC | Query: ac", "me | Page: 1 | Status: SUCCESS".
  reflexivity.
Qed.

(** ** Field extractor: failures and what it looks at *)

(** The fields of a record whose agent the extractor can read. *)
Lemma extract_with_agent (m agent : gmap string pyval) :
  agent_of m = Some agent ->
  extract_needed_fields (PDict m)
  = Ok {| business_name := default (PStr "") (m !! "businessName");
          registration_id := default (PStr "") (m !! "registrationId");
          status := default (PStr "") (m !! "status");
          filing_date := default (PStr "") (m !! "filingDate");
          agent_name := default (PStr "") (agent !! "name");
          agent_address := default (PStr "") (agent !! "address");
          agent_email := default (PStr "") (agent !! "email") |}.
Proof.
  unfold agent_of, extract_needed_fields. simpl.
  destruct (m !! "agent") as [a|]; simpl.
  - destruct a; try discriminate. intros [= ->]. reflexivity.
  - intros [= <-]. reflexivity.
Qed.

Lemma extract_needed_fields_failures_aux (raw : pyval) :
  (exists r, extract_needed_fields raw = Ok r)
  \/ extract_needed_fields raw = Raise AttributeError.
Proof.
  destruct raw; try (right; reflexivity).
  unfold extract_needed_fields. simpl.
  destruct (m !! "agent") as [a|]; simpl.
  - destruct a; try (right; reflexivity). left. eexists. reflexivity.
  - left. eexists. reflexivity.
Qed.

(** X16.  The extractor ends in an exception exactly when the record is no
    object, or is an object whose [agent] is there and is no object; the
    exception is then an AttributeError, and in every other case there is a
    filtered record. *)
Theorem extract_needed_fields_failures (raw : pyval) :
  match raw with
  | PDict m =>
      match agent_of m with
      | Some _ => exists r : filtered_record, extract_needed_fields raw = Ok r
      | None => extract_needed_fields raw = Raise AttributeError
      end
  | _ => extract_needed_fields raw = Raise AttributeError
  end.
Proof.
  destruct raw; try reflexivity.
  unfold agent_of, extract_needed_fields. simpl.
  destruct (m !! "agent") as [a|]; simpl.
  - destruct a; try reflexivity. eexists. reflexivity.
  - eexists. reflexivity.
Qed.

(** X17.  The filtered record depends on nothing but the four top-level
    keys and the three keys of the agent: two records that agree on those
    give the same filtered record, whatever else they hold. *)
Theorem extract_needed_fields_reads_seven_keys
    (m m' agent agent' : gmap string pyval) :
  m !! "businessName" = m' !! "businessName" ->
  m !! "registrationId" = m' !! "registrationId" ->
  m !! "status" = m' !! "status" ->
  m !! "filingDate" = m' !! "filingDate" ->
  agent_of m = Some agent -> agent_of m' = Some agent' ->
  agent !! "name" = agent' !! "name" ->
  agent !! "address" = agent' !! "address" ->
  agent !! "email" = agent' !! "email" ->
  extract_needed_fields (PDict m) = extract_needed_fields (PDict m').
Proof.
  intros H1 H2 H3 H4 Ha Ha' H5 H6 H7.
  rewrite (extract_with_agent m agent Ha), (extract_with_agent m' agent' Ha').
  now rewrite H1, H2, H3, H4, H5, H6, H7.
Qed.

Lemma extract_needed_fields_reads_seven_keys_witness :
  extract_needed_fields
    (PDict {[ "businessName" := PStr "Acme Sub"; "internalScore" := PInt 9 ]})
  = extract_needed_fields
      (PDict {[ "businessName" := PStr "Acme Sub";
                "agent" := PDict {[ "phone" := PStr "555" ]} ]}).
Proof.
  apply (extract_needed_fields_reads_seven_keys
           {[ "businessName" := PStr "Acme Sub"; "internalScore" := PInt 9 ]}
           {[ "businessName" := PStr "Acme Sub";
              "agent" := PDict {[ "phone" := PStr "555" ]} ]}
           ∅ {[ "phone" := PStr "555" ]}); reflexivity.
Defined.

(** ** Pagination driver: pages that go wrong after the fetch *)

(** A page with a record the extractor turns down makes the whole
    comprehension end in the AttributeError. *)
Lemma map_res_extract_raises (l : list pyval) (x : pyval) :
  In x l -> extract_needed_fields x = Raise AttributeError ->
  map_res extract_needed_fields l = Raise AttributeError.
Proof.
  induction l as [|y l IH]; intros Hin Hx; [destruct Hin|]. simpl.
  destruct (extract_needed_fields_failures_aux y) as [[r Hr]|Hr];
    rewrite Hr; simpl; [|reflexivity].
  destruct Hin as [->|Hin]; [congruence|].
  now rewrite (IH Hin Hx).
Qed.

(** X18.  A page is written whole or not at all: when one of its records
    makes the extractor fail, the pass ends in that AttributeError before
    anything of the page reaches the output file, and nothing is logged
    for it after the fetch. *)
Theorem bad_record_keeps_page_out (q : string) (d : Q) (st : driver_state)
    (m : gmap string pyval) (results : list pyval) (x : pyval) (w : world) :
  default (PList []) (m !! "results") = PList results ->
  In x results ->
  extract_needed_fields x = Raise AttributeError ->
  process_page q d st (PDict m) w = (Raise AttributeError, w).
Proof.
  intros Hres Hin Hx.
  pose proof (map_res_extract_raises results x Hin Hx) as Hmap.
  unfold process_page, capture_total_pages.
  destruct (total_pages st); run_monad; rewrite Hres; simpl; rewrite Hmap;
    reflexivity.
Qed.

Lemma bad_record_keeps_page_out_witness :
  process_page "acme" (inject_Z 1) (start_state "tok" 1)
    (PDict null_agent_page) lone_world
  = (Raise AttributeError, lone_world).
Proof.
  apply (bad_record_keeps_page_out "acme" (inject_Z 1) (start_state "tok" 1)
           null_agent_page
           [PDict {[ "businessName" := PStr "Acme"; "agent" := PNone ]}]
           (PDict {[ "businessName" := PStr "Acme"; "agent" := PNone ]})).
  - reflexivity.
  - left. reflexivity.
  - reflexivity.
Defined.

(** X19.  A first page whose [totalPages] is neither an integer nor a
    boolean (a text, null, a list, an object) has its records written to
    the output file, and then ends the pass in the TypeError of the
    comparison with the cursor: no COMPLETED line, no further page. *)
Theorem page_count_of_wrong_type (q : string) (d : Q) (st : driver_state)
    (m : gmap string pyval) (tp : pyval) (results : list pyval)
    (filtered : list filtered_record) (w : world) :
  total_pages st = PNone ->
  m !! "totalPages" = Some tp ->
  py_int tp = Raise TypeError ->
  default (PList []) (m !! "results") = PList results ->
  map_res extract_needed_fields results = Ok filtered ->
  process_page q d st (PDict m) w = (Raise TypeError, written w filtered).
Proof.
  intros Hnone Htp Hint Hres Hmap.
  unfold process_page, capture_total_pages, advance, py_ge.
  rewrite Hnone. run_monad. rewrite Htp. simpl. rewrite Hres. simpl.
  rewrite Hmap. simpl. rewrite Hint. reflexivity.
Qed.

Lemma page_count_of_wrong_type_witness :
  process_page "acme" (inject_Z 1) (start_state "tok" 1)
    (PDict text_count_page) lone_world
  = (Raise TypeError, written lone_world [acme_sub]).
Proof.
  apply (page_count_of_wrong_type "acme" (inject_Z 1) (start_state "tok" 1)
           text_count_page (PStr "5")
           [PDict {[ "businessName" := PStr "Acme Sub" ]}] [acme_sub]);
    reflexivity.
Defined.

(** ** Page fetcher: what it leaves behind *)

Lemma emits_ret P {A} (a : A) : emits P (ret a).
Proof. intros w. exists []. simpl. now rewrite app_nil_r. Qed.

Lemma emits_lift P {A} (r : res A) : emits P (lift r).
Proof. intros w. exists []. simpl. now rewrite app_nil_r. Qed.

Lemma emits_bind P {A B} (m : M A) (k : A -> M B) :
  emits P m -> (forall a, emits P (k a)) -> emits P (bind m k).
Proof.
  intros Hm Hk w. unfold bind. destruct (Hm w) as (e1 & T1 & F1).
  destruct (m w) as [[a|e|] w1]; simpl in *; try (exists e1; now split).
  destruct (Hk a w1) as (e2 & T2 & F2).
  exists (e1 ++ e2). rewrite T2, T1, app_assoc. split; [reflexivity|].
  apply Forall_app. now split.
Qed.

Lemma emits_http_get (P : event -> Prop) (r : request) :
  P (EvGet r) -> emits P (http_get r).
Proof. intros H w. exists [EvGet r]. split; [reflexivity | now constructor]. Qed.

Lemma emits_log_message (P : event -> Prop) q p s i :
  P (logged q p s i) -> emits P (log_message q p s i).
Proof.
  intros H w. exists [logged q p s i]. split; [reflexivity | now constructor].
Qed.

Lemma emits_time_sleep (P : event -> Prop) (d : Q) :
  P (EvSleep d) -> emits P (time_sleep d).
Proof.
  intros H w. unfold time_sleep. destruct (Qle_bool 0 d); simpl.
  - exists [EvSleep d]. split; [reflexivity | now constructor].
  - exists []. now rewrite app_nil_r.
Qed.

Ltac emits_step :=
  match goal with
  | |- emits _ (bind _ _) => apply emits_bind; [| intros ?]
  | |- emits _ (if ?b then _ else _) => destruct b
  | |- emits _ (match ?x with _ => _ end) => destruct x
  | |- emits _ (ret _) => apply emits_ret
  | |- emits _ (lift _) => apply emits_lift
  | |- emits _ (http_get _) => apply emits_http_get; reflexivity
  | |- emits _ (log_message _ _ _ _) =>
      apply emits_log_message; simpl; auto
  | |- emits _ (time_sleep _) => apply emits_time_sleep; reflexivity
  end.

Lemma emits_fetch_attempt q p s mr a :
  emits (fetch_event q p s) (fetch_attempt q p s mr a).
Proof.
  unfold fetch_attempt, on_timeout, on_request_exception, check_body,
    report_success.
  repeat emits_step.
Qed.

Lemma emits_fetch_loop fuel q p s mr :
  forall a, emits (fetch_event q p s) (fetch_loop fuel q p s mr a).
Proof.
  induction fuel as [|fuel IH]; intros a; simpl.
  - apply emits_lift.
  - destruct (a <=? mr); [|apply emits_ret].
    apply emits_bind; [apply emits_fetch_attempt |].
    intros [d e|]; [apply emits_ret | apply IH].
Qed.

(** X20.  All a fetch leaves behind is requests for the very page, query
    and credential it was called with, SUCCESS, ERROR and RETRY lines about
    that page, and sleeps of two seconds: it reads nothing from the
    operator, writes nothing to the output file, and asks for no other
    page. *)
Theorem fetch_page_side_effects (q : string) (p : Z) (s : string) (mr : Z)
    (w : world) :
  (exists evs : list event,
     trace (snd (fetch_page q p s mr w)) = trace w ++ evs
     /\ Forall (fetch_event q p s) evs)
  /\ output_file (snd (fetch_page q p s mr w)) = output_file w
  /\ inputs_read (snd (fetch_page q p s mr w)) = inputs_read w.
Proof.
  split; [apply emits_fetch_loop | apply quiet_fetch_page].
Qed.

(** ** More edges of the fetcher and the driver *)

(** X21.  A body whose [error] key holds something other than a text, such
    as null, ends the fetch in an uncaught AttributeError right after the
    request, whatever else the body holds: nothing is logged for the
    attempt and there is no retry. *)
Theorem error_field_not_text (fuel : nat) (q : string) (p : Z) (s : string)
    (mr a : Z) (w : world) (sc : Z) (he : string) (m : gmap string pyval)
    (v : pyval) :
  a <= mr ->
  server w (requests_made w)
    {| req_q := q; req_page := p; req_session := s |}
  = Response sc he (JsonBody (PDict m)) ->
  sc <> 403 -> ~ (400 <= sc < 600) ->
  m !! "error" = Some v ->
  (forall t : string, v <> PStr t) ->
  fetch_loop (S fuel) q p s mr a w
  = (Raise AttributeError,
     later w 1 0 [EvGet {| req_q := q; req_page := p; req_session := s |}]).
Proof.
  intros Hle Hsrv H403 Herr Hkey Hv.
  assert (E1 : (sc =? 403) = false) by (apply Z.eqb_neq; exact H403).
  assert (E2 : (400 <=? sc) && (sc <? 600) = false).
  { destruct (Z.leb_spec 400 sc); [|reflexivity].
    destruct (Z.ltb_spec sc 600); [|reflexivity]. lia. }
  simpl fetch_loop. destruct (Z.leb_spec a mr); [|lia].
  unfold bind at 1; unfold fetch_attempt, bind at 1, http_get; simpl.
  rewrite Hsrv, E1, E2. unfold check_body, py_get.
  destruct (decide (is_Some (m !! "error"))) as [_|Hno];
    [| destruct Hno; eauto].
  rewrite Hkey.
  destruct v; try (now destruct (Hv s0)); run_monad; same_world.
Qed.

Lemma error_field_not_text_witness :
  fst (fetch_page "acme" 1 "tok" 2
         (fresh_world
            (fun _ _ =>
               Response 200 ""
                 (JsonBody (PDict (<["error" := PNone]> lone_page))))
            (fun _ => "quit")))
  = Raise AttributeError.
Proof.
  change (fetch_page "acme" 1 "tok" 2 ?w) with (fetch_loop 4 "acme" 1 "tok" 2 0 w).
  erewrite (error_field_not_text 3 "acme" 1 "tok" 2 0 _ 200 ""
              (<["error" := PNone]> lone_page) PNone).
  - reflexivity.
  - lia.
  - reflexivity.
  - discriminate.
  - lia.
  - reflexivity.
  - intros t. discriminate.
Defined.

(** X22.  The retry loop always ends: for every retry budget, also a
    negative one, and whatever the network answers, [fetch_page] comes back
    with a result or an exception. *)
Theorem fetch_page_terminates (q : string) (p : Z) (s : string) (mr : Z)
    (w : world) :
  (exists r, fst (fetch_page q p s mr w) = Ok r)
  \/ (exists e, fst (fetch_page q p s mr w) = Raise e).
Proof.
  pose proof (fetch_loop_returns (S (Z.to_nat (mr + 1))) q p s mr 0 w) as H.
  unfold fetch_page.
  destruct (fst (fetch_loop (S (Z.to_nat (mr + 1))) q p s mr 0 w)) as [r|e|].
  - left. eauto.
  - right. eauto.
  - destruct H; [lia | lia | reflexivity].
Qed.



Lemma pages_records_split (filt : Z -> list filtered_record) (a : nat) :
  forall (b : nat) (p : Z),
    pages_records filt (a + S b) p
    = pages_records filt a p ++ pages_records filt b (p + Z.of_nat a + 1).
Proof.
  induction a as [|a IH]; intros b p.
  - simpl. rewrite app_nil_r. do 2 f_equal. lia.
  - simpl. rewrite IH, <- !app_assoc. do 3 f_equal. lia.
Qed.

(** X24.  A run resumed at page K writes the very records a run from an
    earlier page writes for the pages from K on: on networks that serve the
    same well-formed pages with the page count N, the records a run from
    [start] adds are those of the pages before K followed by those a run
    from K adds, whatever the credentials and the worlds of the two runs. *)
Theorem resumed_run_writes_the_rest (fuel : nat) (q s s' : string)
    (start K : Z) (delay : Q) (N : Z) (page_of : Z -> gmap string pyval)
    (raw : Z -> list pyval) (filt : Z -> list filtered_record)
    (w w' : world) :
  serves_pages page_of w -> serves_pages page_of w' ->
  well_formed_pages page_of raw filt ->
  (0 <= delay)%Q ->
  page_of start !! "totalPages" = Some (PInt N) ->
  page_of K !! "totalPages" = Some (PInt N) ->
  start < K <= N ->
  (Z.to_nat (N - start) < fuel)%nat ->
  exists early rest : list filtered_record,
    output_file (snd (fetch_all_pages fuel q s start delay w))
    = output_file w ++ early ++ rest
    /\ output_file (snd (fetch_all_pages fuel q s' K delay w'))
       = output_file w' ++ rest
    /\ early = pages_records filt (Z.to_nat (K - 1 - start)) start.
Proof.
  intros Hs Hs' Hw Hd Htp HtpK HK Hf.
  exists (pages_records filt (Z.to_nat (K - 1 - start)) start),
         (pages_records filt (Z.to_nat (N - K)) K).
  rewrite (run_over_pages fuel q s start delay N page_of raw filt w);
    auto.
  rewrite (run_over_pages fuel q s' K delay N page_of raw filt w');
    auto; [| lia].
  simpl. split; [| split; reflexivity]. f_equal.
  replace (Z.to_nat (N - start))
    with (Z.to_nat (K - 1 - start) + S (Z.to_nat (N - K)))%nat by lia.
  rewrite pages_records_split. do 2 f_equal. lia.
Qed.

Lemma resumed_run_writes_the_rest_witness :
  exists early rest : list filtered_record,
    output_file (snd (fetch_all_pages 3 "acme" "tok" 1 (inject_Z 1) acme_world))
    = output_file acme_world ++ early ++ rest
    /\ output_file
         (snd (fetch_all_pages 3 "acme" "tok2" 2 (inject_Z 1) acme_world))
       = output_file acme_world ++ rest
    /\ early = pages_records acme_filtered (Z.to_nat (2 - 1 - 1)) 1.
Proof.
  apply (resumed_run_writes_the_rest 3 "acme" "tok" "tok2" 1 2 (inject_Z 1) 2
           acme_pages acme_raw acme_filtered acme_world acme_world).
  - intros n r. exists 200, "". simpl. unfold acme_pages, acme_page.
    destruct (req_page r =? 1); repeat split; try discriminate; lia.
  - intros n r. exists 200, "". simpl. unfold acme_pages, acme_page.
    destruct (req_page r =? 1); repeat split; try discriminate; lia.
  - intros p. unfold acme_pages, acme_raw, acme_filtered.
    destruct (p =? 1); repeat split; vm_compute; reflexivity.
  - discriminate.
  - reflexivity.
  - reflexivity.
  - lia.
  - simpl. lia.
Defined.

Lemma fetch_page_request_budget_witness :
  fetch_page "acme" 1 "tok" (-1) all_timeouts
  = (Ok (PNone, Some Eother), all_timeouts).
Proof.
  apply (fetch_page_request_budget "acme" 1 "tok" (-1) all_timeouts). lia.
Defined.
